(** * Universal MCP client: the tool-calling loop of [client/client.py]

    A shallow embedding of [UniversalMCPClient]: the wire-schema transform,
    the two provider loops ([_process_anthropic_query] and
    [_process_openai_query]), [process_query] and one iteration of
    [chat_loop].

    Modelling conventions.
    - Python strings are [string]s (ASCII); an exception is represented by its
      message [str(e)].
    - The LLM vendor SDKs, the tool-hosting session and [json.loads] are
      external: they are the fields of a [World].  Every oracle receives the
      log of the calls made so far, so that its answer may depend on the whole
      history.
    - [final_text] holds typed lines; [render_line] is the f-string that the
      source appends, and the value returned to the caller is the
      newline-join of the rendered lines.
    - In [_process_anthropic_query] every assistant message appended to
      [messages] refers to the one list object [assistant_message_content];
      the model keeps that list in the loop state and an assistant message is
      a reference to it ([Anthropic.MAssistant]), resolved when the
      conversation is handed to the provider. *)

From Stdlib Require Import Ascii String List Arith Lia Bool.
From stdpp Require Import base option list strings gmap.
Import ListNotations.

Local Open Scope string_scope.
Local Open Scope list_scope.

(** ** Results of fallible calls *)

Inductive result (A : Type) : Type :=
| Ok (a : A)
| Err (e : string).
Arguments Ok {A} a.
Arguments Err {A} e.

(** ** JSON values *)

#[local] Unset Elimination Schemes.
Inductive json : Type :=
| JNull
| JBool (b : bool)
| JNum (n : Z)
| JStr (s : string)
| JArr (xs : list json)
| JObj (fields : list (string * json)).
#[local] Set Elimination Schemes.

(** [d[key]] on a dict literal, kept in insertion order. *)
Fixpoint assoc (key : string) (fields : list (string * json)) : option json :=
  match fields with
  | [] => None
  | (k, v) :: rest => if String.eqb k key then Some v else assoc key rest
  end.

Definition jget (key : string) (j : json) : option json :=
  match j with
  | JObj fields => assoc key fields
  | _ => None
  end.

Definition jstr (j : json) : option string :=
  match j with
  | JStr s => Some s
  | _ => None
  end.

(** ** Tool descriptors and the wire schemas *)

Module Registry.

(** A tool as listed by the session: [description] may be [None]. *)
Record Tool : Type := mkTool {
  name : string;
  description : option string;
  inputSchema : json
}.

(** [x or ""] on an optional string. *)
Definition or_empty (o : option string) : string :=
  match o with
  | Some s => s
  | None => ""
  end.

(** Lines 190-194: the list comprehension of [_process_anthropic_query]. *)
Definition anthropic_tool (tool : Tool) : json :=
  JObj [ ("name", JStr (name tool));
         ("description", JStr (or_empty (description tool)));
         ("input_schema", inputSchema tool) ].

Definition anthropic_tools (tools : list Tool) : list json :=
  map anthropic_tool tools.

(** Lines 275-282: the list comprehension of [_process_openai_query]. *)
Definition openai_tool (tool : Tool) : json :=
  JObj [ ("type", JStr "function");
         ("function",
          JObj [ ("name", JStr (name tool));
                 ("description", JStr (or_empty (description tool)));
                 ("parameters", inputSchema tool) ]) ].

Definition openai_tools (tools : list Tool) : list json :=
  map openai_tool tools.

(** Reading the three fields back off a wire entry. *)
Definition read_anthropic (j : json) : option (string * string * json) :=
  n ← jget "name" j ≫= jstr;
  d ← jget "description" j ≫= jstr;
  s ← jget "input_schema" j;
  Some (n, d, s).

Definition read_openai (j : json) : option (string * string * json) :=
  f ← jget "function" j;
  n ← jget "name" f ≫= jstr;
  d ← jget "description" f ≫= jstr;
  s ← jget "parameters" f;
  Some (n, d, s).

(** The fields of a descriptor as the wire carries them. *)
Definition fields (tool : Tool) : string * string * json :=
  (name tool, or_empty (description tool), inputSchema tool).

End Registry.

(** ** What travels between the client and its collaborators *)

(** An element of [result.content] of a tool call; only some carry [text]. *)
Inductive content_item : Type :=
| TextContent (text : string)
| OtherContent.

(** A content block of an Anthropic response. *)
Inductive block : Type :=
| TextBlock (text : string)
| ToolUse (id : string) (name : string) (input : json)
| OtherBlock (type : string).

(** A message of the conversation as Anthropic receives it. *)
Inductive amessage : Type :=
| AUser (content : string)
| AAssistant (content : list block)
| AToolResult (tool_use_id : string) (content : string).

(** An entry of [message.tool_calls] of an OpenAI response. *)
Record tool_call : Type := mkToolCall {
  tc_id : string;
  tc_name : string;
  tc_arguments : string
}.

(** [response.choices[i].message] of an OpenAI response. *)
Record omessage : Type := mkOMessage {
  om_content : option string;
  om_tool_calls : option (list tool_call)
}.

(** A message of the conversation as OpenAI receives it. *)
Inductive omsg : Type :=
| OUser (content : string)
| OAssistantCall (id : string) (name : string) (arguments : string)
| OTool (tool_call_id : string) (content : string).

(** The calls that leave the client.  A provider call records the adapter
    (its API key; [None] when the attribute is [None]), the model, the
    conversation and the tool schema it was given, and its outcome. *)
Inductive event : Type :=
| EvListTools (session : nat) (r : result (list Registry.Tool))
| EvAnthropic (adapter : option string) (model : option string)
    (messages : list amessage) (tools : list json) (r : result (list block))
| EvOpenAI (adapter : option string) (model : option string)
    (messages : list omsg) (tools : option (list json))
    (r : result (list omessage))
| EvCallTool (session : nat) (name : string) (args : json)
    (r : result (list content_item)).

Record World : Type := mkWorld {
  list_tools : list event → nat → result (list Registry.Tool);
  messages_create : list event → string → option string →
                    list amessage → list json → result (list block);
  completions_create : list event → string → option string →
                       list omsg → option (list json) →
                       result (list omessage);
  call_tool : list event → nat → string → json → result (list content_item);
  (** [json.loads]; [None] stands for [JSONDecodeError]. *)
  json_loads : string → option json;
  (** [str] of the tool arguments inside an f-string. *)
  str_args : json → string
}.

(** ** The visible output buffer *)

Inductive line : Type :=
| LText (text : string)
| LCalling (tool_name : string) (tool_args : json)
| LToolResult (tool_result_text : string)
| LToolError (tool_name : string) (e : string)
| LParseError (tool_name : string)
| LFollowupError (e : string).

Definition newline : string := String "010"%char EmptyString.

(** ["\n".join(xs)] *)
Definition join_lines (xs : list string) : string := String.concat newline xs.

Definition render_line (w : World) (l : line) : string :=
  match l with
  | LText text => text
  | LCalling tool_name tool_args =>
      "[Calling tool " +:+ tool_name +:+ " with args "
        +:+ str_args w tool_args +:+ "]"
  | LToolResult tool_result_text =>
      "[Tool result: " +:+ tool_result_text +:+ "]"
  | LToolError tool_name e =>
      "[Error calling tool " +:+ tool_name +:+ ": " +:+ e +:+ "]"
  | LParseError tool_name =>
      "[Error: Could not parse arguments for " +:+ tool_name +:+ "]"
  | LFollowupError e =>
      "[Error getting response after tool call: " +:+ e +:+ "]"
  end.

Definition render (w : World) (final_text : list line) : string :=
  join_lines (map (render_line w) final_text).

(** ["\n".join(c.text for c in result.content if hasattr(c, 'text'))] *)
Definition text_of (c : content_item) : option string :=
  match c with
  | TextContent text => Some text
  | OtherContent => None
  end.

Definition tool_result_text (content : list content_item) : string :=
  join_lines (omap text_of content).

(** [self.anthropic.messages] / [self.openai.chat] on a [None] attribute. *)
Definition none_has_no_attribute (attr : string) : string :=
  "'NoneType' object has no attribute '" +:+ attr +:+ "'".

(** ** [_process_anthropic_query] *)

Module Anthropic.

(** An element of the local list [messages].  The dict appended at lines
    233-236 stores a reference to [assistant_message_content], not a copy:
    [MAssistant] is that reference. *)
Inductive message : Type :=
| MUser (content : string)
| MAssistant
| MToolResult (tool_use_id : string) (content : string).

Record state : Type := mkState {
  messages : list message;
  assistant_message_content : list block;
  final_text : list line;
  log : list event
}.

(** What the provider reads through a message at the time of a call. *)
Definition resolve_message (shared : list block) (m : message) : amessage :=
  match m with
  | MUser content => AUser content
  | MAssistant => AAssistant shared
  | MToolResult tool_use_id content => AToolResult tool_use_id content
  end.

Definition resolve (st : state) : list amessage :=
  map (resolve_message (assistant_message_content st)) (messages st).

Definition emit (ls : list line) (st : state) : state :=
  mkState (messages st) (assistant_message_content st)
          (final_text st ++ ls) (log st).

Definition record (ev : event) (st : state) : state :=
  mkState (messages st) (assistant_message_content st)
          (final_text st) (log st ++ [ev]).

Definition push_content (b : block) (st : state) : state :=
  mkState (messages st) (assistant_message_content st ++ [b])
          (final_text st) (log st).

Definition push_messages (ms : list message) (st : state) : state :=
  mkState (messages st ++ ms) (assistant_message_content st)
          (final_text st) (log st).

(** The growth of a state: what was appended to each of its lists. *)
Record delta : Type := mkDelta {
  d_messages : list message;
  d_content : list block;
  d_final_text : list line;
  d_log : list event
}.

Definition dnil : delta := mkDelta [] [] [] [].

Definition dapp (d1 d2 : delta) : delta :=
  mkDelta (d_messages d1 ++ d_messages d2) (d_content d1 ++ d_content d2)
          (d_final_text d1 ++ d_final_text d2) (d_log d1 ++ d_log d2).

Definition extend (st : state) (d : delta) : state :=
  mkState (messages st ++ d_messages d)
          (assistant_message_content st ++ d_content d)
          (final_text st ++ d_final_text d) (log st ++ d_log d).

(** The lines that the reply to a follow-up call contributes. *)
Definition reply_lines (r : result (list block)) : list line :=
  match r with
  | Ok (TextBlock text :: _) => [LText text]
  | Ok _ => []
  | Err e => [LFollowupError e]
  end.

Section Query.
Variable w : World.
Variable session : nat.
Variable adapter : option string.
Variable full_model_name : option string.
Variable available_tools : list json.

(** [self.anthropic.messages.create(model=..., max_tokens=1000,
    messages=messages, tools=available_tools)] *)
Definition create (st : state) : result (list block) * state :=
  let sent := resolve st in
  let r := match adapter with
           | None => Err (none_has_no_attribute "messages")
           | Some key =>
               messages_create w (log st) key full_model_name sent
                               available_tools
           end in
  (r, record (EvAnthropic adapter full_model_name sent available_tools r) st).

(** Lines 257-258: only a leading text block of the follow-up response is
    read. *)
Definition leading_text (content : list block) : list line :=
  match content with
  | TextBlock text :: _ => [LText text]
  | _ => []
  end.

(** Lines 248-261. *)
Definition follow_up (st : state) : state :=
  let '(r, st) := create st in
  match r with
  | Ok content => emit (leading_text content) st
  | Err e => emit [LFollowupError e] st
  end.

(** The body of [for content in response.content] (lines 213-261). *)
Definition on_block (st : state) (content : block) : state :=
  match content with
  | TextBlock text => push_content content (emit [LText text] st)
  | ToolUse id tool_name tool_args =>
      let r := call_tool w (log st) session tool_name tool_args in
      let st := record (EvCallTool session tool_name tool_args r) st in
      match r with
      | Err e => emit [LToolError tool_name e] st
      | Ok result =>
          let text := tool_result_text result in
          let st := emit [LCalling tool_name tool_args; LToolResult text] st in
          let st := push_content content st in
          let st := push_messages [MAssistant; MToolResult id text] st in
          follow_up st
      end
  | OtherBlock _ => st
  end.

(** The [for] statement iterates over the content of the first response;
    rebinding [response] in the body does not change what it iterates. *)
Definition loop (content : list block) (st : state) : state :=
  fold_left on_block content st.

Definition initial (query : string) (log0 : list event) : state :=
  mkState [MUser query] [] [] log0.

(** What one iteration of the loop appends, case by case. *)
Inductive block_delta (st : state) : block → delta → Prop :=
| bd_text text :
    block_delta st (TextBlock text)
      (mkDelta [] [TextBlock text] [LText text] [])
| bd_other type :
    block_delta st (OtherBlock type) dnil
| bd_failed id tool_name tool_args e :
    call_tool w (log st) session tool_name tool_args = Err e →
    block_delta st (ToolUse id tool_name tool_args)
      (mkDelta [] [] [LToolError tool_name e]
         [EvCallTool session tool_name tool_args (Err e)])
| bd_called id tool_name tool_args result sent r :
    call_tool w (log st) session tool_name tool_args = Ok result →
    sent = map (resolve_message
                  (assistant_message_content st
                     ++ [ToolUse id tool_name tool_args]))
               (messages st
                  ++ [MAssistant;
                      MToolResult id (tool_result_text result)]) →
    block_delta st (ToolUse id tool_name tool_args)
      (mkDelta
         [MAssistant; MToolResult id (tool_result_text result)]
         [ToolUse id tool_name tool_args]
         ([LCalling tool_name tool_args;
           LToolResult (tool_result_text result)] ++ reply_lines r)
         [EvCallTool session tool_name tool_args (Ok result);
          EvAnthropic adapter full_model_name sent available_tools r]).

(** The response to the initial call (lines 197-206) and the event that
    records the call. *)
Definition first_response (query : string) (log0 : list event)
  : result (list block) :=
  (create (initial query log0)).1.

Definition first_call (query : string) (log0 : list event) : event :=
  EvAnthropic adapter full_model_name [AUser query] available_tools
    (first_response query log0).

Definition _process_anthropic_query (query : string) (log0 : list event)
  : result string * state :=
  let '(r, st) := create (initial query log0) in
  match r with
  | Err e => (Err e, st)
  | Ok content =>
      let st := loop content st in
      (Ok (render w (final_text st)), st)
  end.
End Query.

End Anthropic.

(** ** [_process_openai_query] *)

Module OpenAI.

Record state : Type := mkState {
  messages : list omsg;
  final_text : list line;
  log : list event
}.

Definition emit (ls : list line) (st : state) : state :=
  mkState (messages st) (final_text st ++ ls) (log st).

Definition record (ev : event) (st : state) : state :=
  mkState (messages st) (final_text st) (log st ++ [ev]).

Definition push_messages (ms : list omsg) (st : state) : state :=
  mkState (messages st ++ ms) (final_text st) (log st).

(** The growth of a state: what was appended to each of its lists. *)
Record delta : Type := mkDelta {
  d_messages : list omsg;
  d_final_text : list line;
  d_log : list event
}.

Definition dnil : delta := mkDelta [] [] [].

Definition dapp (d1 d2 : delta) : delta :=
  mkDelta (d_messages d1 ++ d_messages d2)
          (d_final_text d1 ++ d_final_text d2) (d_log d1 ++ d_log d2).

Definition extend (st : state) (d : delta) : state :=
  mkState (messages st ++ d_messages d)
          (final_text st ++ d_final_text d) (log st ++ d_log d).

(** The lines that the reply to a follow-up call contributes. *)
Definition reply_lines (r : result (list omessage)) : list line :=
  match r with
  | Ok (m :: _) => [LText (Registry.or_empty (om_content m))]
  | Ok [] => []
  | Err e => [LFollowupError e]
  end.

Section Query.
Variable w : World.
Variable session : nat.
Variable adapter : option string.
Variable full_model_name : option string.
Variable available_tools : list json.

(** [self.openai.chat.completions.create(...)]; the follow-up call passes
    no [tools]. *)
Definition create (tools : option (list json)) (st : state)
  : result (list omessage) * state :=
  let r := match adapter with
           | None => Err (none_has_no_attribute "chat")
           | Some key =>
               completions_create w (log st) key full_model_name
                                  (messages st) tools
           end in
  (r, record (EvOpenAI adapter full_model_name (messages st) tools r) st).

(** Lines 361-362. *)
Definition first_choice_text (choices : list omessage) : list line :=
  match choices with
  | m :: _ => [LText (Registry.or_empty (om_content m))]
  | [] => []
  end.

(** Lines 353-365. *)
Definition follow_up (st : state) : state :=
  let '(r, st) := create None st in
  match r with
  | Ok choices => emit (first_choice_text choices) st
  | Err e => emit [LFollowupError e] st
  end.

(** The body of [for tool_call in message.tool_calls] (lines 308-365). *)
Definition on_tool_call (st : state) (tc : tool_call) : state :=
  let tool_name := tc_name tc in
  match json_loads w (tc_arguments tc) with
  | None => emit [LParseError tool_name] st
  | Some tool_args =>
      let r := call_tool w (log st) session tool_name tool_args in
      let st := record (EvCallTool session tool_name tool_args r) st in
      match r with
      | Err e => emit [LToolError tool_name e] st
      | Ok result =>
          let text := tool_result_text result in
          let st := emit [LCalling tool_name tool_args; LToolResult text] st in
          let st := push_messages
                      [OAssistantCall (tc_id tc) tool_name (tc_arguments tc);
                       OTool (tc_id tc) text] st in
          follow_up st
      end
  end.

Definition loop (tool_calls : list tool_call) (st : state) : state :=
  fold_left on_tool_call tool_calls st.

(** Lines 300-303. *)
Definition leading_text (message : omessage) : list line :=
  match Registry.or_empty (om_content message) with
  | "" => []
  | content => [LText content]
  end.

(** [hasattr(message, 'tool_calls') and message.tool_calls] *)
Definition requested (message : omessage) : list tool_call :=
  default [] (om_tool_calls message).

Definition initial (query : string) (log0 : list event) : state :=
  mkState [OUser query] [] log0.

(** What one iteration of the loop appends, case by case. *)
Inductive call_delta (st : state) : tool_call → delta → Prop :=
| cd_undecodable tc :
    json_loads w (tc_arguments tc) = None →
    call_delta st tc (mkDelta [] [LParseError (tc_name tc)] [])
| cd_failed tc tool_args e :
    json_loads w (tc_arguments tc) = Some tool_args →
    call_tool w (log st) session (tc_name tc) tool_args = Err e →
    call_delta st tc
      (mkDelta [] [LToolError (tc_name tc) e]
         [EvCallTool session (tc_name tc) tool_args (Err e)])
| cd_called tc tool_args result sent r :
    json_loads w (tc_arguments tc) = Some tool_args →
    call_tool w (log st) session (tc_name tc) tool_args = Ok result →
    sent = (messages st
             ++ [OAssistantCall (tc_id tc) (tc_name tc) (tc_arguments tc);
                 OTool (tc_id tc) (tool_result_text result)])%list →
    call_delta st tc
      (mkDelta
         [OAssistantCall (tc_id tc) (tc_name tc) (tc_arguments tc);
          OTool (tc_id tc) (tool_result_text result)]
         ([LCalling (tc_name tc) tool_args;
           LToolResult (tool_result_text result)] ++ reply_lines r)
         [EvCallTool session (tc_name tc) tool_args (Ok result);
          EvOpenAI adapter full_model_name sent None r]).

(** The response to the initial call (lines 285-294) and the event that
    records the call. *)
Definition first_response (query : string) (log0 : list event)
  : result (list omessage) :=
  (create (Some available_tools) (initial query log0)).1.

Definition first_call (query : string) (log0 : list event) : event :=
  EvOpenAI adapter full_model_name [OUser query] (Some available_tools)
    (first_response query log0).

Definition _process_openai_query (query : string) (log0 : list event)
  : result string * state :=
  let '(r, st) := create (Some available_tools) (initial query log0) in
  match r with
  | Err e => (Err e, st)
  | Ok [] => (Err "list index out of range", st)
  | Ok (message :: _) =>
      let st := emit (leading_text message) st in
      let st := loop (requested message) st in
      (Ok (render w (final_text st)), st)
  end.
End Query.

End OpenAI.

(** ** Python string methods used by [chat_loop] (ASCII) *)

Module Py.

Definition isspace (c : ascii) : bool :=
  let n := nat_of_ascii c in
  (((9 <=? n) && (n <=? 13)) || ((28 <=? n) && (n <=? 32)))%nat.

Definition lower_char (c : ascii) : ascii :=
  let n := nat_of_ascii c in
  if ((65 <=? n) && (n <=? 90))%nat then ascii_of_nat (n + 32) else c.

Fixpoint lower (s : string) : string :=
  match s with
  | EmptyString => EmptyString
  | String c rest => String (lower_char c) (lower rest)
  end.

Fixpoint lstrip (s : string) : string :=
  match s with
  | EmptyString => EmptyString
  | String c rest => if isspace c then lstrip rest else s
  end.

Fixpoint reverse_onto (s acc : string) : string :=
  match s with
  | EmptyString => acc
  | String c rest => reverse_onto rest (String c acc)
  end.

Definition reverse (s : string) : string := reverse_onto s EmptyString.

Definition rstrip (s : string) : string := reverse (lstrip (reverse s)).

Definition strip (s : string) : string := rstrip (lstrip s).

(** [s[n:]] *)
Fixpoint slice_from (n : nat) (s : string) : string :=
  match n, s with
  | O, _ => s
  | S n', EmptyString => EmptyString
  | S n', String _ rest => slice_from n' rest
  end.

(** [s.split(sep)] for a one-character separator. *)
Fixpoint split (sep : ascii) (s : string) : list string :=
  match s with
  | EmptyString => [EmptyString]
  | String c rest =>
      if Ascii.eqb c sep then EmptyString :: split sep rest
      else match split sep rest with
           | part :: parts => String c part :: parts
           | [] => [String c EmptyString]
           end
  end.

Definition startswith (s pre : string) : bool := String.prefix pre s.

(** Truth value of an [Optional[str]]. *)
Definition truthy (o : option string) : bool :=
  match o with
  | None => false
  | Some s => negb (String.eqb s "")
  end.

End Py.

(** ** The client object *)

Module Client.

Inductive ModelProvider : Type := ANTHROPIC | OPENAI.

Definition provider_eqb (a b : ModelProvider) : bool :=
  match a, b with
  | ANTHROPIC, ANTHROPIC | OPENAI, OPENAI => true
  | _, _ => false
  end.

Definition ANTHROPIC_MODELS : gmap string string :=
  list_to_map [ ("claude-3-opus", "claude-3-opus-latest");
                ("claude-3-sonnet", "claude-3-7-sonnet-latest");
                ("claude-3-haiku", "claude-3-5-haiku-latest") ].

Definition OPENAI_MODELS : gmap string string :=
  list_to_map [ ("gpt-4-turbo", "gpt-4-turbo");
                ("gpt-4", "gpt-4o");
                ("gpt-3.5-turbo", "gpt-3.5-turbo") ].

Definition models_of (p : ModelProvider) : gmap string string :=
  match p with
  | ANTHROPIC => ANTHROPIC_MODELS
  | OPENAI => OPENAI_MODELS
  end.

(** The attributes of [self].  [session] is the identity of the
    [ClientSession] object; an adapter is the vendor client, identified by
    the API key it was built with. *)
Record UniversalMCPClient : Type := mkClient {
  session : option nat;
  _server_path : option string;
  provider : ModelProvider;
  model_name : option string;
  full_model_name : option string;
  anthropic : option string;
  openai : option string
}.

(** [os.environ] as far as the client reads it. *)
Record Environ : Type := mkEnviron {
  ANTHROPIC_API_KEY : option string;
  OPENAI_API_KEY : option string
}.

Definition api_key_of (env : Environ) (p : ModelProvider) : option string :=
  match p with
  | ANTHROPIC => ANTHROPIC_API_KEY env
  | OPENAI => OPENAI_API_KEY env
  end.

Definition default_model (p : ModelProvider) : string :=
  match p with
  | ANTHROPIC => "claude-3-sonnet"
  | OPENAI => "gpt-4-turbo"
  end.

Definition key_not_set (p : ModelProvider) : string :=
  match p with
  | ANTHROPIC => "ANTHROPIC_API_KEY not set in environment or .env file"
  | OPENAI => "OPENAI_API_KEY not set in environment or .env file"
  end.

(** [__init__] (lines 56-119); the two branches differ in the names only. *)
Definition __init__ (env : Environ) (p : ModelProvider)
    (model : option string) : result UniversalMCPClient :=
  if Py.truthy (api_key_of env p) then
    let api_key := api_key_of env p in
    let model := if Py.truthy model then Registry.or_empty model
                 else default_model p in
    let full := default model (models_of p !! model) in
    Ok (mkClient None None p (Some model) (Some full)
          (match p with ANTHROPIC => api_key | OPENAI => None end)
          (match p with OPENAI => api_key | ANTHROPIC => None end))
  else Err (key_not_set p).

Definition not_connected : string :=
  "Not connected to a server. Call connect_to_server() first.".

(** [process_query] (lines 157-178).  Neither this method nor the two
    helpers assign to an attribute of [self]; the client is returned as it
    was received. *)
Definition process_query (w : World) (self : UniversalMCPClient)
    (query : string) (log0 : list event)
  : UniversalMCPClient * result string * list event :=
  match session self with
  | None => (self, Err not_connected, log0)
  | Some s =>
      let r := list_tools w log0 s in
      let log1 := (log0 ++ [EvListTools s r])%list in
      match r with
      | Err e => (self, Err e, log1)
      | Ok tools =>
          match provider self with
          | ANTHROPIC =>
              let '(out, st) :=
                Anthropic._process_anthropic_query w s (anthropic self)
                  (full_model_name self) (Registry.anthropic_tools tools)
                  query log1 in
              (self, out, Anthropic.log st)
          | OPENAI =>
              let '(out, st) :=
                OpenAI._process_openai_query w s (openai self)
                  (full_model_name self) (Registry.openai_tools tools)
                  query log1 in
              (self, out, OpenAI.log st)
          end
      end
  end.

(** *** One iteration of [chat_loop] *)

Inductive printed : Type :=
| PUnsupported (provider_str : string)
| PSwitched (p : ModelProvider) (full_model_name : option string)
| PSwitchError (e : string)
| PResponse (response : string)
| PError (e : string).

Inductive control : Type := Break | Continue.

(** [MODELS.get(self.model_name, self.model_name)] *)
Definition get_or_self (models : gmap string string) (model : option string)
  : option string :=
  match model with
  | None => None
  | Some m => Some (default m (models !! m))
  end.

Definition option_string_eqb (a b : option string) : bool :=
  match a, b with
  | None, None => true
  | Some x, Some y => String.eqb x y
  | _, _ => false
  end.

Definition supported (provider_str : string) : bool :=
  String.eqb provider_str "openai" || String.eqb provider_str "anthropic".

(** Lines 386-399: the provider string and the optional model of a
    [use ...] line. *)
Definition parse_use (query : string) : string * option string :=
  let parts := Py.split ":"%char (Py.strip (Py.slice_from 4 query)) in
  let provider_str := Py.lower (Py.strip (hd EmptyString parts)) in
  let new_model := match parts with
                   | _ :: m :: _ => Some (Py.strip m)
                   | _ => None
                   end in
  (provider_str, new_model).

(** Lines 386-423: the body of [if query.lower().startswith('use ')]. *)
Definition switch (env : Environ) (self : UniversalMCPClient)
    (query : string) : UniversalMCPClient * list printed :=
  let '(provider_str, new_model) := parse_use query in
  if negb (supported provider_str) then (self, [PUnsupported provider_str])
  else
    let new_provider :=
      if String.eqb provider_str "openai" then OPENAI else ANTHROPIC in
    if negb (provider_eqb new_provider (provider self))
       || (Py.truthy new_model
           && negb (option_string_eqb new_model (model_name self)))
    then
      match __init__ env new_provider new_model with
      | Err e => (self, [PSwitchError e])
      | Ok new_client =>
          let full := get_or_self (models_of new_provider) new_model in
          let self' :=
            match new_provider with
            | ANTHROPIC =>
                mkClient (session self) (_server_path self) new_provider
                  new_model full (anthropic new_client) None
            | OPENAI =>
                mkClient (session self) (_server_path self) new_provider
                  new_model full None (openai new_client)
            end in
          (self', [PSwitched new_provider full])
      end
    else (self, []).

Definition is_use (query : string) : bool :=
  Py.startswith (Py.lower query) "use ".

(** The body of [while True] (lines 378-429) on one input line. *)
Definition chat_step (w : World) (env : Environ) (self : UniversalMCPClient)
    (input : string) (log0 : list event)
  : control * UniversalMCPClient * list printed * list event :=
  let query := Py.strip input in
  if String.eqb (Py.lower query) "quit" then (Break, self, [], log0)
  else if is_use query then
    let '(self', out) := switch env self query in
    (Continue, self', out, log0)
  else
    let '(self', r, log1) := process_query w self query log0 in
    match r with
    | Ok response => (Continue, self', [PResponse response], log1)
    | Err e => (Continue, self', [PError e], log1)
    end.

End Client.

(** ** Scripted worlds, for running the model on concrete scenarios *)

Module Script.

(** How many provider calls were made so far. *)
Definition round (log : list event) : nat :=
  length (List.filter
            (λ ev, match ev with
                   | EvAnthropic _ _ _ _ _ | EvOpenAI _ _ _ _ _ => true
                   | _ => false
                   end) log).

(** A decoder that knows three documents and rejects everything else. *)
Definition loads (s : string) : option json :=
  if String.eqb s "{}" then Some (JObj [])
  else if String.eqb s "[]" then Some (JArr [])
  else if String.eqb s "null" then Some JNull
  else None.

Definition show (j : json) : string :=
  match j with
  | JObj [] => "{}"
  | JArr [] => "[]"
  | JNull => "None"
  | _ => "..."
  end.

Definition no_more {A} : result A := Err "no scripted response".

(** The n-th provider call gets the n-th scripted response; a tool answers
    by name. *)
Definition world (anthropic : list (result (list block)))
    (openai : list (result (list omessage)))
    (tool : string → result (list content_item)) : World :=
  mkWorld (λ _ _, Ok [])
          (λ log _ _ _ _, default no_more (anthropic !! round log))
          (λ log _ _ _ _, default no_more (openai !! round log))
          (λ _ _ name _, tool name)
          loads show.

(** Tools: [get_weather] and [get_news] answer, anything else fails. *)
Definition tools (name : string) : result (list content_item) :=
  if String.eqb name "get_weather" then Ok [TextContent "sunny"]
  else if String.eqb name "get_news" then Ok [TextContent "quiet"; OtherContent]
  else Err "boom".

(** Provider A asks for [get_weather]; its reply after the tool result asks
    for [get_news]. *)
Definition asks_again : World :=
  world [Ok [ToolUse "id1" "get_weather" (JObj [])];
         Ok [ToolUse "id2" "get_news" (JObj [])]] [] tools.

(** Provider A asks for [get_weather]; the follow-up call fails. *)
Definition follow_up_fails : World :=
  world [Ok [ToolUse "id1" "get_weather" (JObj [])]; Err "overloaded"] []
        tools.

(** Provider A asks for a tool that fails, then for [get_weather]. *)
Definition first_tool_fails : World :=
  world [Ok [ToolUse "id1" "get_stock" (JObj []);
             ToolUse "id2" "get_weather" (JObj [])];
         Ok [TextBlock "It is sunny."]] [] tools.

(** Provider A asks for one tool, which fails. *)
Definition only_tool_fails : World :=
  world [Ok [ToolUse "id1" "get_stock" (JObj [])]] [] tools.

(** Provider A asks for two tools at once; both answer. *)
Definition two_requests : World :=
  world [Ok [ToolUse "id1" "get_weather" (JObj []);
             ToolUse "id2" "get_news" (JObj [])];
         Ok [TextBlock "one"]; Ok [TextBlock "two"]] [] tools.

(** Provider B asks for three tools; the arguments of the second do not
    decode, the third tool fails. *)
Definition three_calls : list tool_call :=
  [mkToolCall "c1" "get_weather" "{}";
   mkToolCall "c2" "get_news" "{oops";
   mkToolCall "c3" "get_stock" "[]"].

Definition three_requests : World :=
  world [] [Ok [mkOMessage None (Some three_calls)];
            Ok [mkOMessage (Some "fine") None]] tools.

Definition connected (p : Client.ModelProvider) : Client.UniversalMCPClient :=
  Client.mkClient (Some 7) (Some "server.py") p
    (Some (Client.default_model p))
    (Some (default "" (Client.models_of p !! Client.default_model p)))
    (match p with Client.ANTHROPIC => Some "sk-ant" | _ => None end)
    (match p with Client.OPENAI => Some "sk-oai" | _ => None end).

Definition environ : Client.Environ :=
  Client.mkEnviron (Some "sk-ant") (Some "sk-oai").

End Script.

(** ** Observations on the log, the output buffer and the conversation *)

Module Trace.


(** A tool request: the name and the (decoded) arguments. *)
Definition request : Type := string * json.

Definition call_of (ev : event) : option request :=
  match ev with
  | EvCallTool _ tool_name tool_args _ => Some (tool_name, tool_args)
  | _ => None
  end.

(** The tool invocations that were made, in order. *)
Definition executed (log : list event) : list request := omap call_of log.

Definition succeeded (ev : event) : bool :=
  match ev with
  | EvCallTool _ _ _ (Ok _) => true
  | _ => false
  end.

Definition successes (log : list event) : nat :=
  length (List.filter succeeded log).

Definition provider_error (ev : event) : option string :=
  match ev with
  | EvAnthropic _ _ _ _ (Err e) | EvOpenAI _ _ _ _ (Err e) => Some e
  | _ => None
  end.

Definition provider_errors (log : list event) : list string :=
  omap provider_error log.

Definition followup_error (l : line) : option string :=
  match l with
  | LFollowupError e => Some e
  | _ => None
  end.

Definition tool_use_of (b : block) : option request :=
  match b with
  | ToolUse _ tool_name tool_args => Some (tool_name, tool_args)
  | _ => None
  end.

Definition decoded (w : World) (tc : tool_call) : option request :=
  tool_args ← json_loads w (tc_arguments tc); Some (tc_name tc, tool_args).

(** The tool requests that the response of a provider call carries. *)
Definition requests_in (w : World) (ev : event) : list request :=
  match ev with
  | EvAnthropic _ _ _ _ (Ok content) => omap tool_use_of content
  | EvOpenAI _ _ _ _ (Ok (m :: _)) => omap (decoded w) (OpenAI.requested m)
  | _ => []
  end.

Definition requested (w : World) (log : list event) : list request :=
  flat_map (requests_in w) log.

(** The conversation of a provider call is the single user turn [query]. *)
Definition opens_with (query : string) (ev : event) : Prop :=
  match ev with
  | EvAnthropic _ _ sent _ _ => sent = [AUser query]
  | EvOpenAI _ _ sent _ _ => sent = [OUser query]
  | _ => False
  end.

(** What the query returns, given the event of its initial provider call
    and the final output buffer: a failure of that call is raised again, an
    OpenAI response without choices fails on [choices[0]], and otherwise the
    buffer is joined. *)
Definition outcome (w : World) (first : event) (final_text : list line)
  : result string :=
  match first with
  | EvAnthropic _ _ _ _ (Err e) | EvOpenAI _ _ _ _ (Err e) => Err e
  | EvOpenAI _ _ _ _ (Ok []) => Err "list index out of range"
  | _ => Ok (render w final_text)
  end.

(** The initial call gave no response to iterate over. *)
Definition unusable (first : event) : bool :=
  match first with
  | EvAnthropic _ _ _ _ (Ok _) | EvOpenAI _ _ _ _ (Ok (_ :: _)) => false
  | _ => true
  end.

(** The rounds after the first provider call: a failed tool call stands
    alone; a successful one is answered by a provider call whose
    conversation ends with the result just obtained. *)
Inductive phase : Type := Idle | Pending (text : string) | Stuck.

Definition answers (text : string) (ev : event) : bool :=
  match ev with
  | EvAnthropic _ _ sent _ _ =>
      match last sent with
      | Some (AToolResult _ content) => String.eqb content text
      | _ => false
      end
  | EvOpenAI _ _ sent _ _ =>
      match last sent with
      | Some (OTool _ content) => String.eqb content text
      | _ => false
      end
  | _ => false
  end.

Definition advance (ph : phase) (ev : event) : phase :=
  match ph with
  | Idle =>
      match ev with
      | EvCallTool _ _ _ (Ok result) => Pending (tool_result_text result)
      | EvCallTool _ _ _ (Err _) => Idle
      | _ => Stuck
      end
  | Pending text => if answers text ev then Idle else Stuck
  | Stuck => Stuck
  end.


(** The output buffer: a [LCalling] line is directly followed by a
    [LToolResult] line, and no [LToolResult] line stands without one. *)
Inductive expect : Type := Free | ResultDue | Broken.

Definition scan (x : expect) (l : line) : expect :=
  match x, l with
  | Free, LCalling _ _ => ResultDue
  | Free, LToolResult _ => Broken
  | Free, _ => Free
  | ResultDue, LToolResult _ => Free
  | ResultDue, _ => Broken
  | Broken, _ => Broken
  end.

Definition well_traced (ls : list line) : Prop :=
  fold_left scan ls Free = Free.

Definition is_tool_line (l : line) : bool :=
  match l with
  | LCalling _ _ | LToolResult _ | LToolError _ _ => true
  | _ => false
  end.

Definition tool_lines (ls : list line) : list line :=
  List.filter is_tool_line ls.

(** The trace lines that a tool call accounts for. *)
Definition lines_of_event (ev : event) : list line :=
  match ev with
  | EvCallTool _ tool_name tool_args (Ok result) =>
      [LCalling tool_name tool_args; LToolResult (tool_result_text result)]
  | EvCallTool _ tool_name tool_args (Err e) => [LToolError tool_name e]
  | _ => []
  end.

(** Requests and results of a conversation, by request id. *)
Inductive mark : Type :=
| Req (request_id : string)
| Res (request_id : string)
| Other.

Definition mark_of_block (b : block) : mark :=
  match b with
  | ToolUse id _ _ => Req id
  | _ => Other
  end.

Definition marks_of_amessage (m : amessage) : list mark :=
  match m with
  | AUser _ => [Other]
  | AAssistant content => map mark_of_block content
  | AToolResult tool_use_id _ => [Res tool_use_id]
  end.

Definition mark_of_omsg (m : omsg) : mark :=
  match m with
  | OUser _ => Other
  | OAssistantCall id _ _ => Req id
  | OTool tool_call_id _ => Res tool_call_id
  end.

Definition is_req (id : string) (m : mark) : bool :=
  match m with
  | Req id' => String.eqb id' id
  | _ => false
  end.

Definition is_res (id : string) (m : mark) : bool :=
  match m with
  | Res id' => String.eqb id' id
  | _ => false
  end.

(** Every request is followed by exactly one result with its id and by no
    second request with its id. *)
Fixpoint well_answered (ms : list mark) : bool :=
  match ms with
  | [] => true
  | Req id :: rest =>
      (length (List.filter (is_res id) rest) =? 1)%nat
      && (length (List.filter (is_req id) rest) =? 0)%nat
      && well_answered rest
  | _ :: rest => well_answered rest
  end.

(** How what one stretch of a loop appended hangs together: the tool calls
    made are the requests [rqs]; tool calls and follow-up provider calls
    alternate; two messages were appended per successful tool call; each
    failed follow-up call has its error line; the trace lines are those of
    the tool calls. *)
Record coherent (rqs : list request) (appended : nat) (ls : list line)
    (evs : list event) : Prop := mkCoherent {
  co_executed : executed evs = rqs;
  co_alternates : fold_left advance evs Idle = Idle;
  co_messages : appended = 2 * successes evs;
  co_errors : omap followup_error ls = provider_errors evs;
  co_traced : fold_left scan ls Free = Free;
  co_tool_lines : tool_lines ls = flat_map lines_of_event evs
}.

(** A request of provider B with the result that answers it. *)
Definition exchange (x : string * string * string * string) : list omsg :=
  let '(id, tool_name, arguments, text) := x in
  [OAssistantCall id tool_name arguments; OTool id text].

Definition exchange_id (x : string * string * string * string) : string :=
  x.1.1.1.

Definition marks_of_anthropic (sent : list amessage) : list mark :=
  flat_map marks_of_amessage sent.

Definition marks_of_openai (sent : list omsg) : list mark :=
  map mark_of_omsg sent.

End Trace.

(** ** Connecting, cleaning up and the entry point *)

Module Lifecycle.

(** [s.endswith(suffix)] *)
Definition endswith (s suffix : string) : bool :=
  Py.startswith (Py.reverse s) (Py.reverse suffix).

(** What [self.exit_stack] holds: the stdio transport and the session. *)
Inductive resource : Type :=
| Transport (id : nat)
| Session (id : nat).

(** The calls that set up and tear down the connection. *)
Inductive host_event : Type :=
| HStdio (command : string) (args : list string) (r : result nat)
| HSession (transport : nat) (r : result nat)
| HInitialize (session : nat) (r : result unit)
| HClose (res : resource).

(** [stdio_client], [ClientSession] and [session.initialize], each given the
    calls made so far. *)
Record Host : Type := mkHost {
  stdio_client : list host_event → string → list string → result nat;
  client_session : list host_event → nat → result nat;
  initialize : list host_event → nat → result unit
}.

(** The client object with the attributes that [Client.UniversalMCPClient]
    leaves out: the exit stack (in order of entry) and the transport held in
    [self.stdio] and [self.write]. *)
Record Instance : Type := mkInstance {
  self : Client.UniversalMCPClient;
  exit_stack : list resource;
  stdio : option nat
}.

Definition set_server_path (path : string) (c : Client.UniversalMCPClient)
  : Client.UniversalMCPClient :=
  Client.mkClient (Client.session c) (Some path) (Client.provider c)
    (Client.model_name c) (Client.full_model_name c) (Client.anthropic c)
    (Client.openai c).

Definition set_session (s : nat) (c : Client.UniversalMCPClient)
  : Client.UniversalMCPClient :=
  Client.mkClient (Some s) (Client._server_path c) (Client.provider c)
    (Client.model_name c) (Client.full_model_name c) (Client.anthropic c)
    (Client.openai c).

Definition bad_extension : string :=
  "Server script must be a .py or .js file".

(** [connect_to_server] (lines 121-155).  The path is stored before it is
    checked; [self.session] is assigned before [initialize] is awaited. *)
Definition connect_to_server (h : Host) (w : World) (inst : Instance)
    (server_script_path : string) (hlog : list host_event)
    (log : list event)
  : Instance * result (list Registry.Tool) * list host_event * list event :=
  let inst := mkInstance (set_server_path server_script_path (self inst))
                (exit_stack inst) (stdio inst) in
  let is_python := endswith server_script_path ".py" in
  let is_js := endswith server_script_path ".js" in
  if negb (is_python || is_js) then (inst, Err bad_extension, hlog, log)
  else
    let command := if is_python then "python" else "node" in
    let r := stdio_client h hlog command [server_script_path] in
    let hlog := hlog ++ [HStdio command [server_script_path] r] in
    match r with
    | Err e => (inst, Err e, hlog, log)
    | Ok t =>
        let inst := mkInstance (self inst) (exit_stack inst ++ [Transport t])
                      (Some t) in
        let r := client_session h hlog t in
        let hlog := hlog ++ [HSession t r] in
        match r with
        | Err e => (inst, Err e, hlog, log)
        | Ok s =>
            let inst := mkInstance (set_session s (self inst))
                          (exit_stack inst ++ [Session s]) (stdio inst) in
            let r := initialize h hlog s in
            let hlog := hlog ++ [HInitialize s r] in
            match r with
            | Err e => (inst, Err e, hlog, log)
            | Ok _ =>
                let r := list_tools w log s in
                (inst, r, hlog, log ++ [EvListTools s r])
            end
        end
    end.

(** [cleanup] (lines 431-433): the exit stack unwinds, last entered first.
    No attribute of the client is reset. *)
Definition cleanup (inst : Instance) (hlog : list host_event)
  : Instance * list host_event :=
  (mkInstance (self inst) [] (stdio inst),
   hlog ++ map HClose (rev (exit_stack inst))).

(** [UniversalMCPClient(...)] as an object with its fresh exit stack. *)
Definition construct (env : Client.Environ) (p : Client.ModelProvider)
    (model : option string) : result Instance :=
  match Client.__init__ env p model with
  | Ok c => Ok (mkInstance c [] None)
  | Err e => Err e
  end.

(** *** [chat_loop] on a finite prefix of the input *)

(** The loop body on each line in turn, until [quit].  [Client.Continue]
    at the end means that the loop is waiting for more input. *)
Fixpoint chat_lines (w : World) (env : Client.Environ)
    (c : Client.UniversalMCPClient) (inputs : list string)
    (log : list event)
  : Client.control * Client.UniversalMCPClient * list Client.printed
    * list event :=
  match inputs with
  | [] => (Client.Continue, c, [], log)
  | input :: rest =>
      let '(ctl, c', out, log') := Client.chat_step w env c input log in
      match ctl with
      | Client.Break => (Client.Break, c', out, log')
      | Client.Continue =>
          let '(ctl2, c2, out2, log2) := chat_lines w env c' rest log' in
          (ctl2, c2, out ++ out2, log2)
      end
  end.

(** *** [main] (lines 435-460) *)

(** The parsed command line. *)
Record Args : Type := mkArgs {
  server_script : string;
  provider : string;
  model : option string
}.

(** What [main] writes: its own error line, or a line of the chat loop
    (the banner that [chat_loop] prints before its first prompt is not
    recorded). *)
Inductive written : Type :=
| WError (e : string)
| WChat (p : Client.printed).

Record Outcome : Type := mkOutcome {
  output : list written;
  host_log : list host_event;
  call_log : list event;
  (** [false] while the chat loop is still waiting for input. *)
  returned : bool;
  (** The client object, when it was constructed. *)
  final : option Instance
}.

Definition main (h : Host) (w : World) (env : Client.Environ) (args : Args)
    (inputs : list string) : Outcome :=
  let p := if String.eqb (provider args) "anthropic"
           then Client.ANTHROPIC else Client.OPENAI in
  match construct env p (model args) with
  | Err e => mkOutcome [WError e] [] [] true None
  | Ok client =>
      let '(client, r, hlog, log) :=
        connect_to_server h w client (server_script args) [] [] in
      match r with
      | Err e =>
          let '(client, hlog) := cleanup client hlog in
          mkOutcome [WError e] hlog log true (Some client)
      | Ok _ =>
          let '(ctl, c, out, log) :=
            chat_lines w env (self client) inputs log in
          let client := mkInstance c (exit_stack client) (stdio client) in
          match ctl with
          | Client.Continue =>
              mkOutcome (map WChat out) hlog log false (Some client)
          | Client.Break =>
              let '(client, hlog) := cleanup client hlog in
              mkOutcome (map WChat out) hlog log true (Some client)
          end
      end
  end.

(** *** What stays true of the client along the way *)

(** The adapter of the active provider is set, the other one is not. *)
Definition adapter_ready (c : Client.UniversalMCPClient) : Prop :=
  match Client.provider c with
  | Client.ANTHROPIC =>
      Py.truthy (Client.anthropic c) = true ∧ Client.openai c = None
  | Client.OPENAI =>
      Py.truthy (Client.openai c) = true ∧ Client.anthropic c = None
  end.

(** The wire model is the table entry of the model name, or the name. *)
Definition model_resolved (c : Client.UniversalMCPClient) : Prop :=
  Client.full_model_name c
  = Client.get_or_self (Client.models_of (Client.provider c))
      (Client.model_name c).

(** The resources that the calls in a host log acquired, and the ones
    that they released. *)
Definition acquired_by (ev : host_event) : option resource :=
  match ev with
  | HStdio _ _ (Ok t) => Some (Transport t)
  | HSession _ (Ok s) => Some (Session s)
  | _ => None
  end.

Definition released_by (ev : host_event) : option resource :=
  match ev with
  | HClose res => Some res
  | _ => None
  end.

Definition acquired (hlog : list host_event) : list resource :=
  omap acquired_by hlog.

Definition released (hlog : list host_event) : list resource :=
  omap released_by hlog.



Definition is_quit (input : string) : bool :=
  String.eqb (Py.lower (Py.strip input)) "quit".



(** A host on which every step of the connection succeeds. *)
Definition obliging : Host :=
  mkHost (λ _ _ _, Ok 3) (λ _ _, Ok 7) (λ _ _, Ok tt).

(** A host whose session does not initialize. *)
Definition refusing : Host :=
  mkHost (λ _ _ _, Ok 3) (λ _ _, Ok 7) (λ _ _, Err "handshake failed").

End Lifecycle.

(** ** Where the calls of a query go *)

Module Calls.

(** The adapter that [process_query] uses. *)
Definition active_adapter (c : Client.UniversalMCPClient) : option string :=
  match Client.provider c with
  | Client.ANTHROPIC => Client.anthropic c
  | Client.OPENAI => Client.openai c
  end.

(** The initial provider call of a query. *)
Definition initial_call (c : Client.UniversalMCPClient) (query : string)
    (tools : list Registry.Tool) (ev : event) : Prop :=
  match Client.provider c, ev with
  | Client.ANTHROPIC, EvAnthropic a m sent t _ =>
      a = Client.anthropic c ∧ m = Client.full_model_name c
      ∧ sent = [AUser query] ∧ t = Registry.anthropic_tools tools
  | Client.OPENAI, EvOpenAI a m sent t _ =>
      a = Client.openai c ∧ m = Client.full_model_name c
      ∧ sent = [OUser query] ∧ t = Some (Registry.openai_tools tools)
  | _, _ => False
  end.

(** A call made after the initial one: a tool call on the session [s], or a
    provider call through [adapter] for [model] with the tool schema
    [schema]. *)
Definition later_call (p : Client.ModelProvider)
    (adapter model : option string) (s : nat) (schema : option (list json))
    (ev : event) : Prop :=
  match ev with
  | EvCallTool s' _ _ _ => s' = s
  | EvAnthropic a m _ t _ =>
      p = Client.ANTHROPIC ∧ a = adapter ∧ m = model ∧ Some t = schema
  | EvOpenAI a m _ t _ =>
      p = Client.OPENAI ∧ a = adapter ∧ m = model ∧ t = schema
  | EvListTools _ _ => False
  end.

(** The schema that the follow-up calls of a provider carry. *)
Definition later_schema (p : Client.ModelProvider)
    (tools : list Registry.Tool) : option (list json) :=
  match p with
  | Client.ANTHROPIC => Some (Registry.anthropic_tools tools)
  | Client.OPENAI => None
  end.

End Calls.

(** ** The shape of a finished query *)

Module Shape.



Definition block_id (b : block) : option string :=
  match b with
  | ToolUse id _ _ => Some id
  | _ => None
  end.

(** The two messages that a successful tool call of provider A appends,
    as stored and as the provider reads them. *)
Definition entry (x : string * string) : list Anthropic.message :=
  [Anthropic.MAssistant; Anthropic.MToolResult x.1 x.2].

Definition wire_entry (shared : list block) (x : string * string)
  : list amessage :=
  [AAssistant shared; AToolResult x.1 x.2].

End Shape.

(** ** Blanks and words, to speak about command lines *)

Module Words.

Fixpoint all (P : ascii → bool) (s : string) : bool :=
  match s with
  | EmptyString => true
  | String c rest => P c && all P rest
  end.

(** A run of whitespace, possibly empty. *)
Definition blank (s : string) : bool := all Py.isspace s.

(** A non-empty string without whitespace and without a colon. *)
Definition plain (c : ascii) : bool :=
  negb (Py.isspace c) && negb (Ascii.eqb c ":").

Definition word (s : string) : bool :=
  negb (String.eqb s "") && all plain s.

Definition colonless (c : ascii) : bool := negb (Ascii.eqb c ":").

End Words.

(** ** The usage example ([examples/basic_usage.py]) *)

Module Example.

(** What the script prints for its queries. *)
Inductive shown : Type :=
| SQuery (query : string)
| SResponse (response : string).

(** How one part of the script ended: [raised] holds the exception that
    left it, if any. *)
Record Report : Type := mkReport {
  shown_lines : list shown;
  host_log : list Lifecycle.host_event;
  call_log : list event;
  raised : option string
}.

(** [for query in queries: ... await client.process_query(query) ...];
    an exception of [process_query] leaves the loop. *)
Fixpoint run_queries (w : World) (c : Client.UniversalMCPClient)
    (queries : list string) (log : list event)
  : list shown * list event * option string :=
  match queries with
  | [] => ([], log, None)
  | query :: rest =>
      let '(_, r, log) := Client.process_query w c query log in
      match r with
      | Err e => ([SQuery query], log, Some e)
      | Ok response =>
          let '(out, log, err) := run_queries w c rest log in
          (SQuery query :: SResponse response :: out, log, err)
      end
  end.

(** One example: the client is constructed, then connected and queried
    inside [try], and cleaned up in [finally]. *)
Definition part (h : Lifecycle.Host) (w : World) (env : Client.Environ)
    (p : Client.ModelProvider) (model : string) (server_path : string)
    (queries : list string) (hlog : list Lifecycle.host_event)
    (log : list event) : Report :=
  match Lifecycle.construct env p (Some model) with
  | Err e => mkReport [] hlog log (Some e)
  | Ok client =>
      let '(client, r, hlog, log) :=
        Lifecycle.connect_to_server h w client server_path hlog log in
      match r with
      | Err e =>
          let '(_, hlog) := Lifecycle.cleanup client hlog in
          mkReport [] hlog log (Some e)
      | Ok _ =>
          let '(out, log, err) :=
            run_queries w (Lifecycle.self client) queries log in
          let '(_, hlog) := Lifecycle.cleanup client hlog in
          mkReport out hlog log err
      end
  end.

Definition server_path : string := "../server/server.py".

Definition claude_queries : list string :=
  [ "What's the weather in New York?";
    "Tell me a joke about programming";
    "What's the current price of Bitcoin?" ].

Definition gpt_queries : list string :=
  [ "Can you search for the latest news about AI?";
    "What's the definition of 'serendipity'?";
    "What time is it right now?" ].

Definition first_part (h : Lifecycle.Host) (w : World)
    (env : Client.Environ) : Report :=
  part h w env Client.ANTHROPIC "claude-3-sonnet" server_path
    claude_queries [] [].

(** A call that does not go to provider B. *)
Definition not_openai (ev : event) : Prop :=
  match ev with
  | EvOpenAI _ _ _ _ _ => False
  | _ => True
  end.

(** [main]: the second example runs only if the first one raised nothing. *)
Definition main (h : Lifecycle.Host) (w : World) (env : Client.Environ)
  : Report :=
  let r1 := first_part h w env in
  match raised r1 with
  | Some _ => r1
  | None =>
      let r2 := part h w env Client.OPENAI "gpt-4" server_path gpt_queries
                  (host_log r1) (call_log r1) in
      mkReport (shown_lines r1 ++ shown_lines r2) (host_log r2)
        (call_log r2) (raised r2)
  end.

End Example.

(** ** The session state of the web front end ([ui/app.py]) *)

Module UI.

(** The values kept in [st.session_state]. *)
Inductive value : Type :=
| VNone
| VBool (b : bool)
| VStr (s : string)
| VMessages (ms : list (string * string))
| VTools (ts : list Registry.Tool)
| VClient (c : Client.UniversalMCPClient).

(** [if key not in st.session_state: st.session_state[key] = v] *)
Definition set_default (key : string) (v : value)
    (state : gmap string value) : gmap string value :=
  match state !! key with
  | Some _ => state
  | None => <[key := v]> state
  end.

(** [initialize_session_state] (lines 117-135). *)
Definition initialize_session_state (state : gmap string value)
  : gmap string value :=
  set_default "connection_error" VNone
    (set_default "processing" (VBool false)
       (set_default "available_tools" (VTools [])
          (set_default "client" VNone
             (set_default "is_connected" (VBool false)
                (set_default "messages" (VMessages []) state))))).

Definition defaults : gmap string value :=
  list_to_map [ ("messages", VMessages []);
                ("is_connected", VBool false);
                ("client", VNone);
                ("available_tools", VTools []);
                ("processing", VBool false);
                ("connection_error", VNone) ].

End UI.

(** * Properties *)

(** ** Coherence is kept by concatenation *)

Lemma coherent_nil : Trace.coherent [] 0 [] [].
Proof. by constructor. Qed.

Lemma coherent_app rqs1 rqs2 n1 n2 ls1 ls2 evs1 evs2 :
  Trace.coherent rqs1 n1 ls1 evs1 →
  Trace.coherent rqs2 n2 ls2 evs2 →
  Trace.coherent (rqs1 ++ rqs2) (n1 + n2) (ls1 ++ ls2) (evs1 ++ evs2).
Proof.
  intros [H1 H2 H3 H4 H5 H6] [K1 K2 K3 K4 K5 K6].
  constructor.
  - unfold Trace.executed in *. by rewrite omap_app, H1, K1.
  - by rewrite fold_left_app, H2, K2.
  - unfold Trace.successes in *.
    rewrite List.filter_app, length_app. lia.
  - unfold Trace.provider_errors in *. by rewrite !omap_app, H4, K4.
  - by rewrite fold_left_app, H5, K5.
  - unfold Trace.tool_lines in *.
    by rewrite List.filter_app, flat_map_app, H6, K6.
Qed.

Lemma last_two {A} (l : list A) (a b : A) : last (l ++ [a; b]) = Some b.
Proof. induction l as [| x [| y l] IH]; simpl in *; auto. Qed.

Lemma answers_anthropic text adapter model sent m id tools r :
  Trace.answers text
    (EvAnthropic adapter model (sent ++ [m; AToolResult id text]) tools r)
  = true.
Proof. simpl. rewrite last_two. apply String.eqb_refl. Qed.

Lemma answers_openai text adapter model sent m id tools r :
  Trace.answers text
    (EvOpenAI adapter model (sent ++ [m; OTool id text]) tools r) = true.
Proof. simpl. rewrite last_two. apply String.eqb_refl. Qed.

Lemma advance_round session tool_name tool_args result ev :
  Trace.answers (tool_result_text result) ev = true →
  fold_left Trace.advance
    [EvCallTool session tool_name tool_args (Ok result); ev] Trace.Idle
  = Trace.Idle.
Proof. intros H. cbn [fold_left Trace.advance]. by rewrite H. Qed.

(** ** The loop of provider A, one block at a time *)

Section AnthropicLoop.
Variable w : World.
Variable session : nat.
Variable adapter : option string.
Variable full_model_name : option string.
Variable available_tools : list json.

#[local] Abbreviation on_block :=
  (Anthropic.on_block w session adapter full_model_name available_tools).
#[local] Abbreviation loop :=
  (Anthropic.loop w session adapter full_model_name available_tools).
#[local] Abbreviation block_delta :=
  (Anthropic.block_delta w session adapter full_model_name available_tools).

Lemma anthropic_extend_nil st : Anthropic.extend st Anthropic.dnil = st.
Proof.
  destruct st; unfold Anthropic.extend; simpl.
  by rewrite !app_nil_r.
Qed.

Lemma anthropic_extend_app st d1 d2 :
  Anthropic.extend (Anthropic.extend st d1) d2
  = Anthropic.extend st (Anthropic.dapp d1 d2).
Proof.
  unfold Anthropic.extend, Anthropic.dapp; simpl.
  by rewrite !app_assoc.
Qed.

(** Each iteration appends, and what it appends is one of four cases. *)
Lemma anthropic_on_block_delta st b :
  ∃ d, on_block st b = Anthropic.extend st d ∧ block_delta st b d.
Proof.
  destruct b as [text | id tool_name tool_args | type]; simpl.
  - eexists; split; [| constructor].
    destruct st; unfold Anthropic.extend, Anthropic.emit,
      Anthropic.push_content; simpl. by rewrite !app_nil_r.
  - destruct (call_tool w (Anthropic.log st) session tool_name tool_args)
      as [result | e] eqn:Hcall.
    + unfold Anthropic.follow_up, Anthropic.create.
      set (sent := Anthropic.resolve _).
      set (r := match adapter with Some _ => _ | None => _ end).
      exists (Anthropic.mkDelta
                [Anthropic.MAssistant;
                 Anthropic.MToolResult id (tool_result_text result)]
                [ToolUse id tool_name tool_args]
                ([LCalling tool_name tool_args;
                  LToolResult (tool_result_text result)]
                   ++ Anthropic.reply_lines r)
                [EvCallTool session tool_name tool_args (Ok result);
                 EvAnthropic adapter full_model_name sent available_tools r]).
      split; [| by econstructor].
      destruct st, r as [[| [] ?] | ?];
        unfold Anthropic.extend, Anthropic.emit, Anthropic.record,
          Anthropic.push_content, Anthropic.push_messages; simpl;
        rewrite <- ?app_assoc; simpl; by rewrite ?app_nil_r.
    + eexists; split; [| by constructor].
      destruct st; unfold Anthropic.extend, Anthropic.emit, Anthropic.record;
        simpl. by rewrite !app_nil_r.
  - exists Anthropic.dnil; split; [| constructor].
    by rewrite anthropic_extend_nil.
Qed.

(** Any property of the growth that holds of each case and is kept by
    concatenation holds of the whole loop. *)
Lemma anthropic_loop_delta (Q : list block → Anthropic.delta → Prop) :
  Q [] Anthropic.dnil →
  (∀ c1 c2 d1 d2, Q c1 d1 → Q c2 d2 → Q (c1 ++ c2) (Anthropic.dapp d1 d2)) →
  (∀ st b d, block_delta st b d → Q [b] d) →
  ∀ content st,
    ∃ d, loop content st = Anthropic.extend st d ∧ Q content d.
Proof.
  intros Hnil Happ Hstep content.
  induction content as [| b content IH]; intros st.
  - exists Anthropic.dnil. by rewrite anthropic_extend_nil.
  - destruct (anthropic_on_block_delta st b) as (d1 & Hd1 & Hb).
    destruct (IH (on_block st b)) as (d2 & Hd2 & HQ).
    exists (Anthropic.dapp d1 d2); split.
    + unfold Anthropic.loop in *; simpl. rewrite Hd2, Hd1.
      apply anthropic_extend_app.
    + apply (Happ [b] content); eauto.
Qed.

(** The growth of the whole loop is coherent with the tool-use blocks of
    the content it iterates over. *)
Lemma anthropic_block_coherent st b d :
  block_delta st b d →
  Trace.coherent (omap Trace.tool_use_of [b])
    (length (Anthropic.d_messages d)) (Anthropic.d_final_text d)
    (Anthropic.d_log d).
Proof.
  destruct 1 as [text | type | id tool_name tool_args e Hcall
                | id tool_name tool_args result sent r Hcall Hsent];
    try (by constructor).
  subst sent. rewrite map_app.
  constructor; try done.
  - apply advance_round, answers_anthropic.
  - by destruct r as [[| [] ?] | ?].
  - by destruct r as [[| [] ?] | ?].
  - by destruct r as [[| [] ?] | ?].
Qed.

Lemma anthropic_loop_coherent content st :
  ∃ d, loop content st = Anthropic.extend st d
       ∧ Trace.coherent (omap Trace.tool_use_of content)
           (length (Anthropic.d_messages d)) (Anthropic.d_final_text d)
           (Anthropic.d_log d).
Proof.
  apply (anthropic_loop_delta
           (λ c d, Trace.coherent (omap Trace.tool_use_of c)
                     (length (Anthropic.d_messages d))
                     (Anthropic.d_final_text d) (Anthropic.d_log d))).
  - apply coherent_nil.
  - intros c1 c2 d1 d2 H1 H2. simpl.
    rewrite omap_app, length_app. by apply coherent_app.
  - apply anthropic_block_coherent.
Qed.

End AnthropicLoop.

(** ** The loop of provider B, one tool call at a time *)

Section OpenAILoop.
Variable w : World.
Variable session : nat.
Variable adapter : option string.
Variable full_model_name : option string.

#[local] Abbreviation on_tool_call :=
  (OpenAI.on_tool_call w session adapter full_model_name).
#[local] Abbreviation loop :=
  (OpenAI.loop w session adapter full_model_name).
#[local] Abbreviation call_delta :=
  (OpenAI.call_delta w session adapter full_model_name).

Lemma openai_extend_nil st : OpenAI.extend st OpenAI.dnil = st.
Proof.
  destruct st; unfold OpenAI.extend; simpl.
  by rewrite !app_nil_r.
Qed.

Lemma openai_extend_app st d1 d2 :
  OpenAI.extend (OpenAI.extend st d1) d2
  = OpenAI.extend st (OpenAI.dapp d1 d2).
Proof.
  unfold OpenAI.extend, OpenAI.dapp; simpl.
  by rewrite !app_assoc.
Qed.

(** Each iteration appends, and what it appends is one of three cases. *)
Lemma openai_on_tool_call_delta st tc :
  ∃ d, on_tool_call st tc = OpenAI.extend st d ∧ call_delta st tc d.
Proof.
  unfold OpenAI.on_tool_call.
  destruct (json_loads w (tc_arguments tc)) as [tool_args |] eqn:Hloads.
  - destruct (call_tool w (OpenAI.log st) session (tc_name tc) tool_args)
      as [result | e] eqn:Hcall.
    + unfold OpenAI.follow_up, OpenAI.create.
      set (r := match adapter with Some _ => _ | None => _ end).
      exists (OpenAI.mkDelta
                [OAssistantCall (tc_id tc) (tc_name tc) (tc_arguments tc);
                 OTool (tc_id tc) (tool_result_text result)]
                ([LCalling (tc_name tc) tool_args;
                  LToolResult (tool_result_text result)]
                   ++ OpenAI.reply_lines r)
                [EvCallTool session (tc_name tc) tool_args (Ok result);
                 EvOpenAI adapter full_model_name
                   (OpenAI.messages st
                      ++ [OAssistantCall (tc_id tc) (tc_name tc)
                            (tc_arguments tc);
                          OTool (tc_id tc) (tool_result_text result)])
                   None r]).
      split; [| by econstructor].
      destruct st, r as [[| ? ?] | ?];
        unfold OpenAI.extend, OpenAI.emit, OpenAI.record,
          OpenAI.push_messages; simpl;
        rewrite <- ?app_assoc; simpl; by rewrite ?app_nil_r.
    + eexists; split; [| by econstructor].
      destruct st; unfold OpenAI.extend, OpenAI.emit, OpenAI.record;
        simpl. by rewrite !app_nil_r.
  - eexists; split; [| by constructor].
    destruct st; unfold OpenAI.extend, OpenAI.emit; simpl.
    by rewrite !app_nil_r.
Qed.

Lemma openai_loop_delta (Q : list tool_call → OpenAI.delta → Prop) :
  Q [] OpenAI.dnil →
  (∀ c1 c2 d1 d2, Q c1 d1 → Q c2 d2 → Q (c1 ++ c2) (OpenAI.dapp d1 d2)) →
  (∀ st tc d, call_delta st tc d → Q [tc] d) →
  ∀ tool_calls st,
    ∃ d, loop tool_calls st = OpenAI.extend st d ∧ Q tool_calls d.
Proof.
  intros Hnil Happ Hstep tool_calls.
  induction tool_calls as [| tc tool_calls IH]; intros st.
  - exists OpenAI.dnil. by rewrite openai_extend_nil.
  - destruct (openai_on_tool_call_delta st tc) as (d1 & Hd1 & Hb).
    destruct (IH (on_tool_call st tc)) as (d2 & Hd2 & HQ).
    exists (OpenAI.dapp d1 d2); split.
    + unfold OpenAI.loop in *; simpl. rewrite Hd2, Hd1.
      apply openai_extend_app.
    + apply (Happ [tc] tool_calls); eauto.
Qed.

Lemma openai_call_coherent st tc d :
  call_delta st tc d →
  Trace.coherent (omap (Trace.decoded w) [tc])
    (length (OpenAI.d_messages d)) (OpenAI.d_final_text d) (OpenAI.d_log d).
Proof.
  destruct 1 as [tc Hloads | tc tool_args e Hloads Hcall
                | tc tool_args result sent r Hloads Hcall Hsent];
    simpl; unfold Trace.decoded; rewrite Hloads; simpl;
    try (by constructor).
  subst sent.
  constructor; try done.
  - apply advance_round, answers_openai.
  - by destruct r as [[| ? ?] | ?].
  - by destruct r as [[| ? ?] | ?].
  - by destruct r as [[| ? ?] | ?].
Qed.

Lemma openai_loop_coherent tool_calls st :
  ∃ d, loop tool_calls st = OpenAI.extend st d
       ∧ Trace.coherent (omap (Trace.decoded w) tool_calls)
           (length (OpenAI.d_messages d)) (OpenAI.d_final_text d)
           (OpenAI.d_log d).
Proof.
  apply (openai_loop_delta
           (λ c d, Trace.coherent (omap (Trace.decoded w) c)
                     (length (OpenAI.d_messages d))
                     (OpenAI.d_final_text d) (OpenAI.d_log d))).
  - apply coherent_nil.
  - intros c1 c2 d1 d2 H1 H2. simpl.
    rewrite omap_app, length_app. by apply coherent_app.
  - apply openai_call_coherent.
Qed.

(** The conversation of provider B grows by whole exchanges: a request
    directly followed by the result with its id. *)
Lemma openai_loop_exchanges tool_calls st :
  ∃ xs, OpenAI.messages (loop tool_calls st)
        = OpenAI.messages st ++ flat_map Trace.exchange xs.
Proof.
  destruct (openai_loop_delta
              (λ _ d, ∃ xs, OpenAI.d_messages d = flat_map Trace.exchange xs))
    with (tool_calls := tool_calls) (st := st) as (d & -> & xs & Hxs).
  - by exists [].
  - intros _ _ d1 d2 [xs1 H1] [xs2 H2]. exists (xs1 ++ xs2).
    simpl. by rewrite flat_map_app, H1, H2.
  - intros st' tc d Hd.
    destruct Hd as [tc _ | tc tool_args e _ _ | tc tool_args res sent r _ _ _].
    + by exists [].
    + by exists [].
    + by exists [(tc_id tc, tc_name tc, tc_arguments tc,
                  tool_result_text res)].
  - exists xs. simpl. by rewrite Hxs.
Qed.

End OpenAILoop.

(** ** A whole query *)

Section Queries.
Variable w : World.
Variable session : nat.
Variable adapter : option string.
Variable full_model_name : option string.
Variable available_tools : list json.

(** The two query functions, with the initial call made explicit. *)
Lemma anthropic_query_unfold query log0 :
  Anthropic._process_anthropic_query w session adapter full_model_name
    available_tools query log0
  = let st1 :=
      Anthropic.mkState [Anthropic.MUser query] [] []
        (log0 ++ [Anthropic.first_call w adapter full_model_name
                    available_tools query log0]) in
    match Anthropic.first_response w adapter full_model_name
            available_tools query log0 with
    | Err e => (Err e, st1)
    | Ok content =>
        let st := Anthropic.loop w session adapter full_model_name
                    available_tools content st1 in
        (Ok (render w (Anthropic.final_text st)), st)
    end.
Proof.
  unfold Anthropic._process_anthropic_query, Anthropic.first_call,
    Anthropic.first_response, Anthropic.create.
  cbn [fst snd].
  by destruct adapter as [key |];
    [destruct (messages_create w _ key _ _ _) |].
Qed.

Lemma openai_query_unfold query log0 :
  OpenAI._process_openai_query w session adapter full_model_name
    available_tools query log0
  = let st1 :=
      OpenAI.mkState [OUser query] []
        (log0 ++ [OpenAI.first_call w adapter full_model_name
                    available_tools query log0]) in
    match OpenAI.first_response w adapter full_model_name
            available_tools query log0 with
    | Err e => (Err e, st1)
    | Ok [] => (Err "list index out of range", st1)
    | Ok (message :: _) =>
        let st := OpenAI.loop w session adapter full_model_name
                    (OpenAI.requested message)
                    (OpenAI.emit (OpenAI.leading_text message) st1) in
        (Ok (render w (OpenAI.final_text st)), st)
    end.
Proof.
  unfold OpenAI._process_openai_query, OpenAI.first_call,
    OpenAI.first_response, OpenAI.create.
  cbn [fst snd].
  by destruct adapter as [key |];
    [destruct (completions_create w _ key _ _ _) as [[| ? ?] | ?] |].
Qed.

(** [_process_anthropic_query] makes the initial call on the conversation
    [[user query]] and then grows the state coherently with the requests of
    that first response. *)
Lemma anthropic_run query log0 :
  let first :=
    Anthropic.first_call w adapter full_model_name available_tools
      query log0 in
  let run :=
    Anthropic._process_anthropic_query w session adapter full_model_name
      available_tools query log0 in
  ∃ d,
    run.2 = Anthropic.extend
              (Anthropic.mkState [Anthropic.MUser query] [] [] (log0 ++ [first]))
              d
    ∧ Trace.coherent (Trace.requests_in w first)
        (length (Anthropic.d_messages d)) (Anthropic.d_final_text d)
        (Anthropic.d_log d)
    ∧ run.1 = Trace.outcome w first (Anthropic.d_final_text d)
    ∧ (Trace.unusable first = true → d = Anthropic.dnil).
Proof.
  cbv zeta. rewrite anthropic_query_unfold. cbv zeta.
  unfold Anthropic.first_call.
  destruct (Anthropic.first_response _ _ _ _ _ _) as [content | e].
  - match goal with |- context [Anthropic.loop _ _ _ _ _ _ ?st1] =>
      destruct (anthropic_loop_coherent w session adapter full_model_name
                  available_tools content st1) as (d & Hd & Hco)
    end.
    exists d. cbn [fst snd]. by rewrite Hd.
  - exists Anthropic.dnil. cbn [fst snd].
    split; [by rewrite anthropic_extend_nil |].
    split; [apply coherent_nil | done].
Qed.

Lemma leading_text_coherent message :
  Trace.coherent [] 0 (OpenAI.leading_text message) [].
Proof.
  unfold OpenAI.leading_text.
  by destruct (Registry.or_empty (om_content message)); constructor.
Qed.

Lemma openai_run query log0 :
  let first :=
    OpenAI.first_call w adapter full_model_name available_tools query log0 in
  let run :=
    OpenAI._process_openai_query w session adapter full_model_name
      available_tools query log0 in
  ∃ d,
    run.2 = OpenAI.extend (OpenAI.mkState [OUser query] [] (log0 ++ [first])) d
    ∧ Trace.coherent (Trace.requests_in w first)
        (length (OpenAI.d_messages d)) (OpenAI.d_final_text d)
        (OpenAI.d_log d)
    ∧ (∃ xs, OpenAI.d_messages d = flat_map Trace.exchange xs)
    ∧ run.1 = Trace.outcome w first (OpenAI.d_final_text d)
    ∧ (Trace.unusable first = true → d = OpenAI.dnil).
Proof.
  cbv zeta. rewrite openai_query_unfold. cbv zeta.
  unfold OpenAI.first_call.
  destruct (OpenAI.first_response _ _ _ _ _ _)
    as [[| message choices] | e].
  - exists OpenAI.dnil. cbn [fst snd].
    split; [by rewrite openai_extend_nil |].
    split; [apply coherent_nil |]. split; [by exists [] | done].
  - match goal with |- context [OpenAI.loop _ _ _ _ _ ?st1] =>
      destruct (openai_loop_coherent w session adapter full_model_name
                  (OpenAI.requested message) st1) as (d & Hd & Hco);
      destruct (openai_loop_exchanges w session adapter full_model_name
                  (OpenAI.requested message) st1) as (xs & Hxs)
    end.
    exists (OpenAI.dapp (OpenAI.mkDelta [] (OpenAI.leading_text message) [])
              d).
    cbn [fst snd]. rewrite Hd in *. split; [| split; [| split]].
    + rewrite <- openai_extend_app. f_equal.
      unfold OpenAI.extend, OpenAI.emit; simpl. by rewrite !app_nil_r.
    + apply (coherent_app [] _ 0 _ _ _ [] _); [| done].
      apply leading_text_coherent.
    + exists xs. simpl in *. by injection Hxs.
    + done.
  - exists OpenAI.dnil. cbn [fst snd].
    split; [by rewrite openai_extend_nil |].
    split; [apply coherent_nil |]. split; [by exists [] | done].
Qed.

End Queries.

(** ** [process_query] *)

(** On a connected client whose tool listing succeeds, the client is
    returned as it was, the log grows by the listing, one initial provider
    call on the conversation [[user query]], and rounds that are coherent
    with the requests of that first response and with the output buffer. *)
Lemma process_query_run w self query log0 s tools :
  Client.session self = Some s →
  list_tools w log0 s = Ok tools →
  ∃ first rest appended lines,
    Client.process_query w self query log0
    = (self, Trace.outcome w first lines,
       log0 ++ EvListTools s (Ok tools) :: first :: rest)
    ∧ Trace.opens_with query first
    ∧ Trace.coherent (Trace.requests_in w first) appended lines rest
    ∧ (Trace.unusable first = true → rest = [] ∧ lines = []).
Proof.
  intros Hs Htools. unfold Client.process_query. rewrite Hs, Htools.
  destruct (Client.provider self).
  - destruct (anthropic_run w s (Client.anthropic self)
                (Client.full_model_name self)
                (Registry.anthropic_tools tools) query
                (log0 ++ [EvListTools s (Ok tools)]))
      as (d & Hd & Hco & Hout & Hun).
    cbv zeta in Hd, Hout.
    destruct (Anthropic._process_anthropic_query _ _ _ _ _ _ _) as [out st].
    cbn [fst snd] in *. subst st out.
    eexists _, (Anthropic.d_log d), _, _.
    split; [| split; [| split; [exact Hco |]]].
    + simpl. by rewrite <- !app_assoc.
    + done.
    + intros H. by rewrite (Hun H).
  - destruct (openai_run w s (Client.openai self)
                (Client.full_model_name self)
                (Registry.openai_tools tools) query
                (log0 ++ [EvListTools s (Ok tools)]))
      as (d & Hd & Hco & _ & Hout & Hun).
    cbv zeta in Hd, Hout.
    destruct (OpenAI._process_openai_query _ _ _ _ _ _ _) as [out st].
    cbn [fst snd] in *. subst st out.
    eexists _, (OpenAI.d_log d), _, _.
    split; [| split; [| split; [exact Hco |]]].
    + simpl. by rewrite <- !app_assoc.
    + done.
    + intros H. by rewrite (Hun H).
Qed.




(** ** The wire schemas *)

(** C8.  Both transforms keep a descriptor list entry by entry: provider A
    gets [{name, description, input_schema}] and provider B
    [{type: "function", function: {name, description, parameters}}], with the
    empty string for an absent description; reading the three fields back
    off either shape gives the name, the description (empty when absent)
    and the schema of every descriptor, in order. *)
Theorem wire_schema_lossless (tools : list Registry.Tool) :
  Registry.anthropic_tools tools
  = map (λ t, JObj [("name", JStr (Registry.name t));
                    ("description",
                     JStr (default "" (Registry.description t)));
                    ("input_schema", Registry.inputSchema t)]) tools
  ∧ Registry.openai_tools tools
    = map (λ t, JObj [("type", JStr "function");
                      ("function",
                       JObj [("name", JStr (Registry.name t));
                             ("description",
                              JStr (default "" (Registry.description t)));
                             ("parameters", Registry.inputSchema t)])])
          tools
  ∧ map Registry.read_anthropic (Registry.anthropic_tools tools)
    = map (λ t, Some (Registry.name t,
                      default "" (Registry.description t),
                      Registry.inputSchema t)) tools
  ∧ map Registry.read_openai (Registry.openai_tools tools)
    = map (λ t, Some (Registry.name t,
                      default "" (Registry.description t),
                      Registry.inputSchema t)) tools.
Proof.
  unfold Registry.anthropic_tools, Registry.openai_tools.
  split; [reflexivity |]. split; [reflexivity |]. split.
  - rewrite List.map_map. apply List.map_ext; intros [n [d |] sch]; reflexivity.
  - rewrite List.map_map. apply List.map_ext; intros [n [d |] sch]; reflexivity.
Qed.

(** ** Calling [process_query] before a session exists *)

(** C10.  With [session] unset, [process_query] raises the "Not connected"
    error; the log of calls and the client are as they were. *)
Theorem process_query_not_connected w self query log0 :
  Client.session self = None →
  Client.process_query w self query log0
  = (self, Err Client.not_connected, log0)
  ∧ Py.startswith Client.not_connected "Not connected" = true.
Proof.
  intros Hs. unfold Client.process_query. by rewrite Hs.
Qed.

Lemma process_query_not_connected_witness :
  Client.session
    (Client.mkClient None None Client.ANTHROPIC None None (Some "sk-ant") None)
  = None
  ∧ Client.process_query Script.asks_again
    (Client.mkClient None None Client.ANTHROPIC None None (Some "sk-ant") None)
    "hello" []
  = (Client.mkClient None None Client.ANTHROPIC None None (Some "sk-ant") None,
     Err Client.not_connected, [])
  ∧ Py.startswith Client.not_connected "Not connected" = true.
Proof.
  split; [reflexivity |].
  apply (process_query_not_connected Script.asks_again
           (Client.mkClient None None Client.ANTHROPIC None None
              (Some "sk-ant") None) "hello" []).
  reflexivity.
Defined.

(** ** Switching provider and model *)

Lemma use_is_not_quit s :
  Py.startswith s "use " = true → String.eqb s "quit" = false.
Proof.
  intros H. destruct (String.eqb_spec s "quit") as [-> |]; [| done].
  discriminate H.
Qed.

Lemma init_ok env p model c :
  Client.__init__ env p model = Ok c →
  Py.truthy (Client.api_key_of env p) = true
  ∧ match p with
    | Client.ANTHROPIC =>
        Client.anthropic c = Client.api_key_of env p ∧ Client.openai c = None
    | Client.OPENAI =>
        Client.openai c = Client.api_key_of env p ∧ Client.anthropic c = None
    end.
Proof.
  unfold Client.__init__.
  destruct (Py.truthy (Client.api_key_of env p)); [| done].
  intros [= <-]. by destruct p.
Qed.



(** ** Failures inside a query *)

Lemma anthropic_loop_app w s adapter model tools c1 c2 st :
  Anthropic.loop w s adapter model tools (c1 ++ c2) st
  = Anthropic.loop w s adapter model tools c2
      (Anthropic.loop w s adapter model tools c1 st).
Proof. apply fold_left_app. Qed.

Lemma openai_loop_app w s adapter model c1 c2 st :
  OpenAI.loop w s adapter model (c1 ++ c2) st
  = OpenAI.loop w s adapter model c2 (OpenAI.loop w s adapter model c1 st).
Proof. apply fold_left_app. Qed.

Lemma anthropic_failed_block w s adapter model tools st id tool_name
    tool_args e :
  call_tool w (Anthropic.log st) s tool_name tool_args = Err e →
  Anthropic.on_block w s adapter model tools st
    (ToolUse id tool_name tool_args)
  = Anthropic.mkState (Anthropic.messages st)
      (Anthropic.assistant_message_content st)
      (Anthropic.final_text st ++ [LToolError tool_name e])
      (Anthropic.log st ++ [EvCallTool s tool_name tool_args (Err e)]).
Proof. intros H. simpl. by rewrite H. Qed.

Lemma openai_failed_call w s adapter model st tc tool_args e :
  json_loads w (tc_arguments tc) = Some tool_args →
  call_tool w (OpenAI.log st) s (tc_name tc) tool_args = Err e →
  OpenAI.on_tool_call w s adapter model st tc
  = OpenAI.mkState (OpenAI.messages st)
      (OpenAI.final_text st ++ [LToolError (tc_name tc) e])
      (OpenAI.log st ++ [EvCallTool s (tc_name tc) tool_args (Err e)]).
Proof. intros H1 H2. unfold OpenAI.on_tool_call. by rewrite H1, H2. Qed.

(** C3 (as amended).  When the invocation of a requested tool fails with
    [e], the iteration appends the one line
    ["[Error calling tool <name>: <e>]"] to the output buffer and the failed
    call to the log; the conversation is not touched, no provider call is
    made for it, and the loop goes on with the requests that follow it in
    the same response.  This holds in both provider loops. *)
Theorem failed_tool_call_is_reported w s adapter model tools
    pre id tool_name tool_args post st e
    pre' tc tool_args' post' st' e' :
  let st1 := Anthropic.loop w s adapter model tools pre st in
  let st1' := OpenAI.loop w s adapter model pre' st' in
  call_tool w (Anthropic.log st1) s tool_name tool_args = Err e →
  json_loads w (tc_arguments tc) = Some tool_args' →
  call_tool w (OpenAI.log st1') s (tc_name tc) tool_args' = Err e' →
  Anthropic.loop w s adapter model tools
    (pre ++ ToolUse id tool_name tool_args :: post) st
  = Anthropic.loop w s adapter model tools post
      (Anthropic.mkState (Anthropic.messages st1)
         (Anthropic.assistant_message_content st1)
         (Anthropic.final_text st1 ++ [LToolError tool_name e])
         (Anthropic.log st1 ++ [EvCallTool s tool_name tool_args (Err e)]))
  ∧ OpenAI.loop w s adapter model (pre' ++ tc :: post') st'
    = OpenAI.loop w s adapter model post'
        (OpenAI.mkState (OpenAI.messages st1')
           (OpenAI.final_text st1' ++ [LToolError (tc_name tc) e'])
           (OpenAI.log st1'
              ++ [EvCallTool s (tc_name tc) tool_args' (Err e')]))
  ∧ render_line w (LToolError tool_name e)
    = "[Error calling tool " +:+ tool_name +:+ ": " +:+ e +:+ "]".
Proof.
  intros st1 st1' H1 H2 H3. split; [| split; [| reflexivity]].
  - rewrite anthropic_loop_app. fold st1.
    unfold Anthropic.loop at 1. cbn [fold_left].
    by rewrite (anthropic_failed_block _ _ _ _ _ _ _ _ _ _ H1).
  - rewrite openai_loop_app. fold st1'.
    unfold OpenAI.loop at 1. cbn [fold_left].
    by rewrite (openai_failed_call _ _ _ _ _ _ _ _ H2 H3).
Qed.

(** C3 (as stated) fails: after a query whose only tool call failed, the
    conversation holds no tool-result entry at all. *)
Lemma failed_call_leaves_no_tool_result :
  ¬ (∀ w s adapter model tools query tool_name tool_args e,
       let st := (Anthropic._process_anthropic_query w s adapter model tools
                    query []).2 in
       In (EvCallTool s tool_name tool_args (Err e)) (Anthropic.log st) →
       ∃ id text, In (AToolResult id text) (Anthropic.resolve st)).
Proof.
  intros H.
  destruct (H Script.only_tool_fails 7 (Some "sk-ant") None [] "hello"
              "get_stock" (JObj []) "boom") as (id & text & Hin).
  - vm_compute. right; by left.
  - vm_compute in Hin. by destruct Hin as [Hin | []].
Qed.

Lemma failed_tool_call_is_reported_witness :
  let w := Script.first_tool_fails in
  let st := Anthropic.initial "hello" [] in
  let st' := OpenAI.initial "hello" [] in
  call_tool w (Anthropic.log st) 7 "get_stock" (JObj []) = Err "boom"
  ∧ json_loads w "[]" = Some (JArr [])
  ∧ call_tool w (OpenAI.log st') 7 "get_stock" (JArr []) = Err "boom"
  ∧ Anthropic.loop w 7 (Some "sk-ant") None []
      [ToolUse "id1" "get_stock" (JObj []);
       ToolUse "id2" "get_weather" (JObj [])] st
    = Anthropic.loop w 7 (Some "sk-ant") None []
        [ToolUse "id2" "get_weather" (JObj [])]
        (Anthropic.mkState [Anthropic.MUser "hello"] []
           [LToolError "get_stock" "boom"]
           [EvCallTool 7 "get_stock" (JObj []) (Err "boom")])
  ∧ OpenAI.loop w 7 (Some "sk-ant") None
      [mkToolCall "c3" "get_stock" "[]"; mkToolCall "c1" "get_weather" "{}"]
      st'
    = OpenAI.loop w 7 (Some "sk-ant") None
        [mkToolCall "c1" "get_weather" "{}"]
        (OpenAI.mkState [OUser "hello"] [LToolError "get_stock" "boom"]
           [EvCallTool 7 "get_stock" (JArr []) (Err "boom")]).
Proof.
  intros w st st'.
  split; [reflexivity |]. split; [reflexivity |]. split; [reflexivity |].
  pose proof (failed_tool_call_is_reported w 7 (Some "sk-ant") None []
                [] "id1" "get_stock" (JObj [])
                [ToolUse "id2" "get_weather" (JObj [])] st "boom"
                [] (mkToolCall "c3" "get_stock" "[]") (JArr [])
                [mkToolCall "c1" "get_weather" "{}"]
                (OpenAI.mkState [OUser "hello"] [] []) "boom"
                eq_refl eq_refl eq_refl) as (HA & HB & _).
  split; [exact HA | exact HB].
Defined.






(** The two faces of C4 on concrete runs: the initial call fails and the
    error is the outcome; a follow-up call fails and the outcome is the
    output with the error line. *)
Example initial_failure_is_raised :
  (Client.process_query (Script.world [Err "unauthorized"] [] Script.tools)
     (Script.connected Client.ANTHROPIC) "hello" []).1.2
  = Err "unauthorized".
Proof. reflexivity. Qed.

Example follow_up_failure_is_absorbed :
  (Client.process_query Script.follow_up_fails
     (Script.connected Client.ANTHROPIC) "hello" []).1.2
  = Ok (join_lines
          ["[Calling tool get_weather with args {}]";
           "[Tool result: sunny]";
           "[Error getting response after tool call: overloaded]"]).
Proof. reflexivity. Qed.

(** ** The conversation within a query *)





(** ** The trace lines of the output buffer *)

(** C9.  In the output buffer of either query function a
    ["[Calling tool ...]"] line is always directly followed by a
    ["[Tool result: ...]"] line, and the tool lines of the buffer are, in
    order, those of the tool calls made: the pair of a calling line and the
    line with the joined result text for a call that succeeded, and the
    single ["[Error calling tool <name>: <e>]"] line for a call that failed.
    The value returned is the join of the rendered buffer. *)
Theorem tool_lines_follow_the_calls w s adapter model tools query log0 :
  let a := Anthropic._process_anthropic_query w s adapter model tools
             query log0 in
  let o := OpenAI._process_openai_query w s adapter model tools query log0 in
  (∃ first rest,
     Anthropic.log a.2 = log0 ++ first :: rest
     ∧ Trace.well_traced (Anthropic.final_text a.2)
     ∧ Trace.tool_lines (Anthropic.final_text a.2)
       = flat_map Trace.lines_of_event rest
     ∧ a.1 = Trace.outcome w first (Anthropic.final_text a.2))
  ∧ (∃ first rest,
       OpenAI.log o.2 = log0 ++ first :: rest
       ∧ Trace.well_traced (OpenAI.final_text o.2)
       ∧ Trace.tool_lines (OpenAI.final_text o.2)
         = flat_map Trace.lines_of_event rest
       ∧ o.1 = Trace.outcome w first (OpenAI.final_text o.2))
  ∧ (∀ session tool_name tool_args result e,
       Trace.lines_of_event
         (EvCallTool session tool_name tool_args (Ok result))
       = [LCalling tool_name tool_args;
          LToolResult (tool_result_text result)]
       ∧ Trace.lines_of_event
           (EvCallTool session tool_name tool_args (Err e))
         = [LToolError tool_name e]
       ∧ render_line w (LCalling tool_name tool_args)
         = "[Calling tool " +:+ tool_name +:+ " with args "
             +:+ str_args w tool_args +:+ "]"
       ∧ render_line w (LToolResult (tool_result_text result))
         = "[Tool result: " +:+ tool_result_text result +:+ "]"
       ∧ render_line w (LToolError tool_name e)
         = "[Error calling tool " +:+ tool_name +:+ ": " +:+ e +:+ "]").
Proof.
  intros a o. split; [| split; [| done]].
  - destruct (anthropic_run w s adapter model tools query log0)
      as (d & Hd & Hco & Hout & _).
    fold a in Hd, Hout. rewrite Hd. eexists _, (Anthropic.d_log d).
    simpl. split; [by rewrite <- app_assoc |].
    split; [apply Hco |]. split; [apply Hco | done].
  - destruct (openai_run w s adapter model tools query log0)
      as (d & Hd & Hco & _ & Hout & _).
    fold o in Hd, Hout. rewrite Hd. eexists _, (OpenAI.d_log d).
    simpl. split; [by rewrite <- app_assoc |].
    split; [apply Hco |]. split; [apply Hco | done].
Qed.

(** The scenario of two requests, the first failing: one error line, then
    the two lines of the call that succeeded and the text of the reply. *)
Example one_failure_one_success :
  (Client.process_query Script.first_tool_fails
     (Script.connected Client.ANTHROPIC) "hello" []).1.2
  = Ok (join_lines
          ["[Error calling tool get_stock: boom]";
           "[Calling tool get_weather with args {}]";
           "[Tool result: sunny]";
           "It is sunny."]).
Proof. reflexivity. Qed.

(** ** Requests and their results in the conversation *)

Lemma exchange_marks_without id xs :
  id ∉ map Trace.exchange_id xs →
  List.filter (Trace.is_res id)
    (Trace.marks_of_openai (flat_map Trace.exchange xs)) = []
  ∧ List.filter (Trace.is_req id)
      (Trace.marks_of_openai (flat_map Trace.exchange xs)) = [].
Proof.
  induction xs as [| [[[id' n] a] t] xs IH]; [done |].
  intros Hnot. apply not_elem_of_cons in Hnot as [Hne Hnot].
  destruct (IH Hnot) as [IH1 IH2].
  unfold Trace.marks_of_openai, Trace.exchange_id in *.
  simpl in *. apply not_eq_sym in Hne.
  apply String.eqb_neq in Hne. by rewrite Hne.
Qed.

Lemma exchanges_well_answered xs :
  NoDup (map Trace.exchange_id xs) →
  Trace.well_answered (Trace.marks_of_openai (flat_map Trace.exchange xs))
  = true.
Proof.
  induction xs as [| [[[id n] a] t] xs IH]; [done |].
  intros Hnd. apply NoDup_cons in Hnd as [Hnot Hnd].
  destruct (exchange_marks_without id xs Hnot) as [H1 H2].
  unfold Trace.marks_of_openai, Trace.exchange_id in *. simpl in *.
  rewrite String.eqb_refl. simpl. rewrite H1, H2. simpl. by apply IH.
Qed.

(** The exchanges appended by the loop of provider B carry ids of the tool
    calls it iterated over, in their order. *)
Lemma openai_loop_exchange_ids w s adapter model tool_calls st :
  ∃ xs, OpenAI.messages (OpenAI.loop w s adapter model tool_calls st)
        = OpenAI.messages st ++ flat_map Trace.exchange xs
        ∧ map Trace.exchange_id xs `sublist_of` map tc_id tool_calls.
Proof.
  destruct (openai_loop_delta w s adapter model
              (λ tcs d, ∃ xs, OpenAI.d_messages d = flat_map Trace.exchange xs
                              ∧ map Trace.exchange_id xs
                                `sublist_of` map tc_id tcs))
    with (tool_calls := tool_calls) (st := st) as (d & -> & xs & Hxs & Hsub).
  - by exists [].
  - intros c1 c2 d1 d2 (xs1 & H1 & S1) (xs2 & H2 & S2). exists (xs1 ++ xs2).
    simpl. rewrite flat_map_app, H1, H2, !map_app. split; [done |].
    by apply sublist_app.
  - intros st' tc d Hd.
    destruct Hd as [tc _ | tc tool_args e _ _ | tc tool_args res sent r _ _ _].
    + exists []. split; [done | apply sublist_nil_l].
    + exists []. split; [done | apply sublist_nil_l].
    + by exists [(tc_id tc, tc_name tc, tc_arguments tc,
                  tool_result_text res)].
  - exists xs. simpl. by rewrite Hxs.
Qed.

(** In the loop of provider B, tool calls with distinct ids leave a
    conversation in which every request is answered once: each appended
    request is directly followed by the result with its id. *)
Lemma openai_requests_answered_once w s adapter model tool_calls query log0 :
  NoDup (map tc_id tool_calls) →
  Trace.well_answered
    (Trace.marks_of_openai
       (OpenAI.messages
          (OpenAI.loop w s adapter model tool_calls
             (OpenAI.initial query log0)))) = true.
Proof.
  intros Hnd.
  destruct (openai_loop_exchange_ids w s adapter model tool_calls
              (OpenAI.initial query log0)) as (xs & -> & Hsub).
  simpl. apply exchanges_well_answered.
  by eapply sublist_NoDup.
Qed.

(** C2 (the code at the failing input).  Provider A answers with two
    tool-use blocks and both tools succeed.  Both assistant messages of the
    conversation then hold both blocks: each request appears twice, and the
    second occurrence of [id1] is followed by no result with its id.  This
    is the conversation handed to the provider on the last call of the
    query. *)
Theorem anthropic_requests_repeated :
  let tu1 := ToolUse "id1" "get_weather" (JObj []) in
  let tu2 := ToolUse "id2" "get_news" (JObj []) in
  let conversation :=
    [AUser "hello"; AAssistant [tu1; tu2]; AToolResult "id1" "sunny";
     AAssistant [tu1; tu2]; AToolResult "id2" "quiet"] in
  let st := (Anthropic._process_anthropic_query Script.two_requests 7
               (Some "sk-ant") None [] "hello" []).2 in
  Anthropic.resolve st = conversation
  ∧ last (Anthropic.log st)
    = Some (EvAnthropic (Some "sk-ant") None conversation []
              (Ok [TextBlock "two"]))
  ∧ Trace.marks_of_anthropic conversation
    = [Trace.Other; Trace.Req "id1"; Trace.Req "id2"; Trace.Res "id1";
       Trace.Req "id1"; Trace.Req "id2"; Trace.Res "id2"]
  ∧ Trace.well_answered (Trace.marks_of_anthropic conversation) = false.
Proof. by vm_compute. Qed.

(** Only successful tool calls add to the conversation: after a query it
    holds the user turn and two entries per tool call that succeeded. *)
Lemma conversation_length w s adapter model tools query log0 :
  (∃ first rest,
     Anthropic.log
       (Anthropic._process_anthropic_query w s adapter model tools
          query log0).2 = log0 ++ first :: rest
     ∧ length (Anthropic.messages
                 (Anthropic._process_anthropic_query w s adapter model tools
                    query log0).2) = 1 + 2 * Trace.successes rest)
  ∧ (∃ first rest,
       OpenAI.log
         (OpenAI._process_openai_query w s adapter model tools
            query log0).2 = log0 ++ first :: rest
       ∧ length (OpenAI.messages
                   (OpenAI._process_openai_query w s adapter model tools
                      query log0).2) = 1 + 2 * Trace.successes rest).
Proof.
  split.
  - destruct (anthropic_run w s adapter model tools query log0)
      as (d & Hd & Hco & _).
    cbv zeta in Hd. rewrite Hd. eexists _, (Anthropic.d_log d). simpl.
    split; [by rewrite <- app_assoc |].
    by rewrite (Trace.co_messages _ _ _ _ Hco).
  - destruct (openai_run w s adapter model tools query log0)
      as (d & Hd & Hco & _).
    cbv zeta in Hd. rewrite Hd. eexists _, (OpenAI.d_log d). simpl.
    split; [by rewrite <- app_assoc |].
    by rewrite (Trace.co_messages _ _ _ _ Hco).
Qed.

(** * Further properties of the client *)

(** ** Construction *)

Lemma init_outcome env p model :
  match Client.__init__ env p model with
  | Ok _ => Py.truthy (Client.api_key_of env p) = true
  | Err e =>
      Py.truthy (Client.api_key_of env p) = false
      ∧ e = Client.key_not_set p
  end.
Proof.
  unfold Client.__init__.
  by destruct (Py.truthy (Client.api_key_of env p)).
Qed.


Lemma init_ready env p model c :
  Client.__init__ env p model = Ok c →
  Client.session c = None
  ∧ Client._server_path c = None
  ∧ Client.provider c = p
  ∧ Lifecycle.adapter_ready c
  ∧ Lifecycle.model_resolved c
  ∧ Client.model_name c
    = Some (if Py.truthy model then default "" model
            else Client.default_model p).
Proof.
  unfold Client.__init__.
  destruct (Py.truthy (Client.api_key_of env p)) eqn:Hkey; [| done].
  intros [= <-].
  unfold Lifecycle.adapter_ready, Lifecycle.model_resolved. simpl.
  repeat split; try done; by destruct p || destruct model.
Qed.

(** X2.  A client that was constructed is not connected, has the adapter of
    its provider (and only that one) set, names a model (the one given, or
    the provider's default when none or the empty name was given) and has
    the wire model that the provider's table gives for that name, or the
    name itself when the table has no entry. *)
Theorem init_gives_consistent_client env p model c :
  Client.__init__ env p model = Ok c →
  Client.session c = None
  ∧ Client._server_path c = None
  ∧ Client.provider c = p
  ∧ Lifecycle.adapter_ready c
  ∧ Lifecycle.model_resolved c
  ∧ Client.model_name c
    = Some (if Py.truthy model then default "" model
            else Client.default_model p).
Proof. apply init_ready. Qed.

Lemma init_gives_consistent_client_witness :
  let c := Client.mkClient None None Client.OPENAI (Some "gpt-4")
             (Some "gpt-4o") None (Some "sk-oai") in
  Client.__init__ Script.environ Client.OPENAI (Some "gpt-4") = Ok c
  ∧ Lifecycle.adapter_ready c
  ∧ Lifecycle.model_resolved c.
Proof.
  intros c. split; [reflexivity |].
  pose proof (init_gives_consistent_client Script.environ Client.OPENAI
                (Some "gpt-4") c eq_refl) as (_ & _ & _ & Hr & Hm & _).
  by split.
Defined.

Lemma table_entry (kvs : list (string * string)) m f :
  (list_to_map kvs : gmap string string) !! m = Some f → (m, f) ∈ kvs.
Proof. apply elem_of_list_to_map_2. Qed.

Lemma resolved_twice p m :
  Client.get_or_self (Client.models_of p)
    (Client.get_or_self (Client.models_of p) (Some m))
  = Client.get_or_self (Client.models_of p) (Some m).
Proof.
  simpl. f_equal.
  destruct (Client.models_of p !! m) as [f |] eqn:Hm; simpl.
  - destruct p; simpl in Hm; apply table_entry in Hm;
      repeat (apply elem_of_cons in Hm as [[= -> ->] | Hm]; [by vm_compute |]);
      by apply elem_of_nil in Hm.
  - by rewrite Hm.
Qed.

(** X3.  Resolving a model name is idempotent: the wire model that a table
    gives for a name resolves to itself, so a wire model can be passed
    where a model name is expected. *)
Theorem resolved_model_is_fixed_point p model :
  Client.get_or_self (Client.models_of p)
    (Client.get_or_self (Client.models_of p) model)
  = Client.get_or_self (Client.models_of p) model.
Proof. destruct model as [m |]; [apply resolved_twice | done]. Qed.

(** ** The chat loop *)

Lemma process_query_same_client w c query log0 :
  (Client.process_query w c query log0).1.1 = c.
Proof.
  unfold Client.process_query.
  destruct (Client.session c) as [s |]; [| done].
  destruct (list_tools w log0 s); [| done].
  destruct (Client.provider c).
  - by destruct (Anthropic._process_anthropic_query _ _ _ _ _ _ _).
  - by destruct (OpenAI._process_openai_query _ _ _ _ _ _ _).
Qed.

Lemma process_query_log_grows w c query log0 :
  log0 `prefix_of` (Client.process_query w c query log0).2.
Proof.
  unfold Client.process_query.
  destruct (Client.session c) as [s |]; [| done].
  destruct (list_tools w log0 s) as [tools | e];
    [| by apply prefix_app_r].
  destruct (Client.provider c).
  - destruct (anthropic_run w s (Client.anthropic c)
                (Client.full_model_name c) (Registry.anthropic_tools tools)
                query (log0 ++ [EvListTools s (Ok tools)]))
      as (d & Hd & _).
    cbv zeta in Hd.
    destruct (Anthropic._process_anthropic_query _ _ _ _ _ _ _) as [out st].
    cbn [fst snd] in *. subst st. simpl.
    rewrite <- !app_assoc. by apply prefix_app_r.
  - destruct (openai_run w s (Client.openai c)
                (Client.full_model_name c) (Registry.openai_tools tools)
                query (log0 ++ [EvListTools s (Ok tools)]))
      as (d & Hd & _).
    cbv zeta in Hd.
    destruct (OpenAI._process_openai_query _ _ _ _ _ _ _) as [out st].
    cbn [fst snd] in *. subst st. simpl.
    rewrite <- !app_assoc. by apply prefix_app_r.
Qed.

(** What a [use ...] line can do to the client. *)
Lemma switch_cases env c query :
  let p := if String.eqb (Client.parse_use query).1 "openai"
           then Client.OPENAI else Client.ANTHROPIC in
  (Client.switch env c query).1 = c
  ∨ (Py.truthy (Client.api_key_of env p) = true
     ∧ (Client.switch env c query).1
       = Client.mkClient (Client.session c) (Client._server_path c) p
           (Client.parse_use query).2
           (Client.get_or_self (Client.models_of p)
              (Client.parse_use query).2)
           (match p with
            | Client.ANTHROPIC => Client.api_key_of env p
            | Client.OPENAI => None
            end)
           (match p with
            | Client.OPENAI => Client.api_key_of env p
            | Client.ANTHROPIC => None
            end)).
Proof.
  unfold Client.switch.
  destruct (Client.parse_use query) as [provider_str new_model]. simpl.
  destruct (Client.supported provider_str); simpl; [| by left].
  set (p := if String.eqb provider_str "openai"
            then Client.OPENAI else Client.ANTHROPIC).
  destruct (negb (Client.provider_eqb p (Client.provider c))
            || Py.truthy new_model
               && negb (Client.option_string_eqb new_model
                          (Client.model_name c))); [| by left].
  destruct (Client.__init__ env p new_model) as [c' |] eqn:Hinit;
    [| by left].
  right. apply init_ok in Hinit as [Hkey Hadapter]. split; [done |].
  clearbody p. destruct p, Hadapter as [Ha Ho]; simpl; by rewrite ?Ha, ?Ho.
Qed.

Lemma chat_step_cases w env c input log :
  let '(ctl, c', out, log') := Client.chat_step w env c input log in
  log `prefix_of` log'
  ∧ (c' = c ∨ (Client.is_use (Py.strip input) = true
               ∧ c' = (Client.switch env c (Py.strip input)).1)).
Proof.
  unfold Client.chat_step.
  destruct (String.eqb (Py.lower (Py.strip input)) "quit"); [by split; [| left] |].
  destruct (Client.is_use (Py.strip input)) eqn:Huse.
  - destruct (Client.switch env c (Py.strip input)) as [c' out] eqn:Hsw.
    split; [done | by right].
  - pose proof (process_query_same_client w c (Py.strip input) log) as Hc.
    pose proof (process_query_log_grows w c (Py.strip input) log) as Hl.
    destruct (Client.process_query w c (Py.strip input) log)
      as [[c' r] log'].
    simpl in *. subst c'. by destruct r; split; [| left | | left].
Qed.

Lemma switch_keeps c env query :
  let c' := (Client.switch env c query).1 in
  Client.session c' = Client.session c
  ∧ Client._server_path c' = Client._server_path c
  ∧ (Lifecycle.adapter_ready c → Lifecycle.adapter_ready c')
  ∧ (Lifecycle.model_resolved c → Lifecycle.model_resolved c').
Proof.
  cbv zeta.
  destruct (switch_cases env c query) as [-> | [Hkey ->]]; [done |].
  unfold Lifecycle.adapter_ready, Lifecycle.model_resolved. simpl.
  repeat split; try done.
  intros _. by destruct (if String.eqb _ _ then _ else _).
Qed.

Lemma chat_step_keeps w env c input log :
  let '(ctl, c', out, log') := Client.chat_step w env c input log in
  log `prefix_of` log'
  ∧ Client.session c' = Client.session c
  ∧ Client._server_path c' = Client._server_path c
  ∧ (Lifecycle.adapter_ready c → Lifecycle.adapter_ready c')
  ∧ (Lifecycle.model_resolved c → Lifecycle.model_resolved c').
Proof.
  pose proof (chat_step_cases w env c input log) as H.
  destruct (Client.chat_step w env c input log) as [[[ctl c'] out] log'].
  destruct H as [Hl [-> | [_ ->]]]; [done |].
  split; [done |]. apply switch_keeps.
Qed.

Lemma chat_lines_keep w env inputs :
  ∀ c log,
    let '(ctl, c', out, log') := Lifecycle.chat_lines w env c inputs log in
    log `prefix_of` log'
    ∧ Client.session c' = Client.session c
    ∧ Client._server_path c' = Client._server_path c
    ∧ (Lifecycle.adapter_ready c → Lifecycle.adapter_ready c')
    ∧ (Lifecycle.model_resolved c → Lifecycle.model_resolved c').
Proof.
  induction inputs as [| input inputs IH]; intros c log; simpl; [done |].
  pose proof (chat_step_keeps w env c input log) as H1.
  destruct (Client.chat_step w env c input log) as [[[ctl c1] out1] log1].
  destruct ctl; [done |].
  specialize (IH c1 log1).
  destruct (Lifecycle.chat_lines w env c1 inputs log1)
    as [[[ctl2 c2] out2] log2].
  destruct H1 as (P1 & S1 & T1 & R1 & M1), IH as (P2 & S2 & T2 & R2 & M2).
  repeat split; [by etrans | congruence | congruence | auto | auto].
Qed.

(** X4.  Whatever lines are typed, the chat loop leaves [session] and
    [_server_path] as they were, and the log of calls only grows: no line,
    whether a query, a switch or [quit], reconnects or disconnects. *)
Theorem chat_never_touches_connection w env c inputs log :
  let '(ctl, c', out, log') := Lifecycle.chat_lines w env c inputs log in
  Client.session c' = Client.session c
  ∧ Client._server_path c' = Client._server_path c
  ∧ log `prefix_of` log'.
Proof.
  pose proof (chat_lines_keep w env inputs c log) as H.
  destruct (Lifecycle.chat_lines w env c inputs log)
    as [[[ctl c'] out] log'].
  by destruct H as (? & ? & ? & _).
Qed.

(** X5.  The chat loop keeps the client consistent: if the adapter of the
    active provider is the only one set and the wire model is the resolved
    model name before the loop, the same holds after any sequence of lines,
    switches that succeed or fail included. *)
Theorem chat_keeps_client_consistent w env c inputs log :
  Lifecycle.adapter_ready c →
  Lifecycle.model_resolved c →
  let '(ctl, c', out, log') := Lifecycle.chat_lines w env c inputs log in
  Lifecycle.adapter_ready c' ∧ Lifecycle.model_resolved c'.
Proof.
  intros Hr Hm.
  pose proof (chat_lines_keep w env inputs c log) as H.
  destruct (Lifecycle.chat_lines w env c inputs log)
    as [[[ctl c'] out] log'].
  destruct H as (_ & _ & _ & H1 & H2). auto.
Qed.

Lemma chat_keeps_client_consistent_witness :
  let c := Script.connected Client.ANTHROPIC in
  let inputs := ["use openai:gpt-4"; "use gemini"; "hello"; "use anthropic"] in
  Lifecycle.adapter_ready c
  ∧ Lifecycle.model_resolved c
  ∧ let '(ctl, c', out, log') :=
      Lifecycle.chat_lines Script.asks_again Script.environ c inputs [] in
    Lifecycle.adapter_ready c' ∧ Lifecycle.model_resolved c'.
Proof.
  intros c inputs.
  assert (Hr : Lifecycle.adapter_ready c) by (by vm_compute).
  assert (Hm : Lifecycle.model_resolved c) by (by vm_compute).
  split; [done |]. split; [done |].
  exact (chat_keeps_client_consistent Script.asks_again Script.environ c
           inputs [] Hr Hm).
Defined.

Lemma chat_lines_app w env l1 l2 :
  ∀ c log,
    Lifecycle.chat_lines w env c (l1 ++ l2) log
    = let '(ctl, c1, out1, log1) := Lifecycle.chat_lines w env c l1 log in
      match ctl with
      | Client.Break => (Client.Break, c1, out1, log1)
      | Client.Continue =>
          let '(ctl2, c2, out2, log2) :=
            Lifecycle.chat_lines w env c1 l2 log1 in
          (ctl2, c2, out1 ++ out2, log2)
      end.
Proof.
  induction l1 as [| input l1 IH]; intros c log; simpl.
  - by destruct (Lifecycle.chat_lines w env c l2 log) as [[[? ?] ?] ?].
  - destruct (Client.chat_step w env c input log) as [[[ctl c1] out1] log1].
    destruct ctl; [done |]. rewrite IH.
    destruct (Lifecycle.chat_lines w env c1 l1 log1)
      as [[[ctl2 c2] out2] log2].
    destruct ctl2; [done |].
    destruct (Lifecycle.chat_lines w env c2 l2 log2)
      as [[[ctl3 c3] out3] log3].
    by rewrite app_assoc.
Qed.

Lemma chat_step_breaks_on_quit w env c input log :
  (Client.chat_step w env c input log).1.1.1
  = if String.eqb (Py.lower (Py.strip input)) "quit"
    then Client.Break else Client.Continue.
Proof.
  unfold Client.chat_step.
  destruct (String.eqb (Py.lower (Py.strip input)) "quit"); [done |].
  destruct (Client.is_use (Py.strip input)).
  - by destruct (Client.switch env c (Py.strip input)).
  - by destruct (Client.process_query w c (Py.strip input) log)
      as [[? []] ?].
Qed.

Lemma chat_lines_without_quit w env inputs :
  Forall (λ l, Py.lower (Py.strip l) ≠ "quit") inputs →
  ∀ c log, (Lifecycle.chat_lines w env c inputs log).1.1.1 = Client.Continue.
Proof.
  induction 1 as [| input inputs Hq _ IH]; intros c log; simpl; [done |].
  pose proof (chat_step_breaks_on_quit w env c input log) as Hc.
  apply String.eqb_neq in Hq. rewrite Hq in Hc.
  destruct (Client.chat_step w env c input log) as [[[ctl c1] out1] log1].
  simpl in Hc. subst ctl. specialize (IH c1 log1).
  by destruct (Lifecycle.chat_lines w env c1 inputs log1)
    as [[[ctl2 c2] out2] log2].
Qed.

(** X6.  The first line that reads [quit], in any letter case and with any
    surrounding blanks, ends the loop: the client, the output and the calls
    are those of the lines before it, and the lines after it are never
    read. *)
Theorem quit_ends_the_loop w env c pre line post log :
  Forall (λ l, Py.lower (Py.strip l) ≠ "quit") pre →
  Py.lower (Py.strip line) = "quit" →
  Lifecycle.chat_lines w env c (pre ++ line :: post) log
  = let '(_, c', out, log') := Lifecycle.chat_lines w env c pre log in
    (Client.Break, c', out, log').
Proof.
  intros Hpre Hquit. rewrite chat_lines_app.
  pose proof (chat_lines_without_quit w env pre Hpre c log) as Hc.
  destruct (Lifecycle.chat_lines w env c pre log) as [[[ctl c1] out1] log1].
  simpl in Hc. subst ctl. simpl.
  unfold Client.chat_step. rewrite Hquit. simpl. by rewrite app_nil_r.
Qed.

Lemma quit_ends_the_loop_witness :
  let c := Script.connected Client.ANTHROPIC in
  Forall (λ l, Py.lower (Py.strip l) ≠ "quit") ["use openai:gpt-4"]
  ∧ Py.lower (Py.strip "  QuIt ") = "quit"
  ∧ Lifecycle.chat_lines Script.asks_again Script.environ c
      (["use openai:gpt-4"] ++ "  QuIt " :: ["hello"; "use anthropic"]) []
    = let '(_, c', out, log') :=
        Lifecycle.chat_lines Script.asks_again Script.environ c
          ["use openai:gpt-4"] [] in
      (Client.Break, c', out, log').
Proof.
  intros c.
  assert (H1 : Forall (λ l, Py.lower (Py.strip l) ≠ "quit")
                 ["use openai:gpt-4"])
    by (by repeat constructor).
  split; [exact H1 |]. split; [reflexivity |].
  exact (quit_ends_the_loop Script.asks_again Script.environ c
           ["use openai:gpt-4"] "  QuIt " ["hello"; "use anthropic"] []
           H1 eq_refl).
Defined.

(** ** Switching, case by case *)

(** Whether a [use ...] line asks for a new client (line 402). *)
Lemma switch_unfold env c query :
  let provider_str := (Client.parse_use query).1 in
  let new_model := (Client.parse_use query).2 in
  let p := if String.eqb provider_str "openai"
           then Client.OPENAI else Client.ANTHROPIC in
  Client.supported provider_str = true →
  Client.switch env c query
  = if negb (Client.provider_eqb p (Client.provider c))
       || Py.truthy new_model
          && negb (Client.option_string_eqb new_model (Client.model_name c))
    then
      match Client.__init__ env p new_model with
      | Err e => (c, [Client.PSwitchError e])
      | Ok new_client =>
          (match p with
           | Client.ANTHROPIC =>
               Client.mkClient (Client.session c) (Client._server_path c) p
                 new_model
                 (Client.get_or_self (Client.models_of p) new_model)
                 (Client.anthropic new_client) None
           | Client.OPENAI =>
               Client.mkClient (Client.session c) (Client._server_path c) p
                 new_model
                 (Client.get_or_self (Client.models_of p) new_model)
                 None (Client.openai new_client)
           end,
           [Client.PSwitched p
              (Client.get_or_self (Client.models_of p) new_model)])
      end
    else (c, []).
Proof.
  cbv zeta. unfold Client.switch.
  destruct (Client.parse_use query) as [provider_str new_model]. simpl.
  by intros ->.
Qed.






(** ** Where the calls of a query go *)

Lemma anthropic_loop_calls w s adapter model tools content st :
  ∃ d, Anthropic.loop w s adapter model tools content st
       = Anthropic.extend st d
       ∧ Forall (Calls.later_call Client.ANTHROPIC adapter model s
                   (Some tools)) (Anthropic.d_log d).
Proof.
  apply (anthropic_loop_delta w s adapter model tools
           (λ _ d, Forall (Calls.later_call Client.ANTHROPIC adapter model s
                             (Some tools)) (Anthropic.d_log d))).
  - constructor.
  - intros _ _ d1 d2 H1 H2. simpl. by apply Forall_app.
  - intros st' b d Hd. destruct Hd; simpl; repeat constructor.
Qed.

Lemma openai_loop_calls w s adapter model tool_calls st :
  ∃ d, OpenAI.loop w s adapter model tool_calls st = OpenAI.extend st d
       ∧ Forall (Calls.later_call Client.OPENAI adapter model s None)
           (OpenAI.d_log d).
Proof.
  apply (openai_loop_delta w s adapter model
           (λ _ d, Forall (Calls.later_call Client.OPENAI adapter model s
                             None) (OpenAI.d_log d))).
  - constructor.
  - intros _ _ d1 d2 H1 H2. simpl. by apply Forall_app.
  - intros st' tc d Hd. destruct Hd; simpl; repeat constructor.
Qed.

Lemma process_query_calls w c query log0 s tools :
  Client.session c = Some s →
  list_tools w log0 s = Ok tools →
  ∃ first rest,
    (Client.process_query w c query log0).2
    = log0 ++ EvListTools s (Ok tools) :: first :: rest
    ∧ Calls.initial_call c query tools first
    ∧ Forall (Calls.later_call (Client.provider c) (Calls.active_adapter c)
                (Client.full_model_name c) s
                (Calls.later_schema (Client.provider c) tools)) rest.
Proof.
  intros Hs Htools. unfold Client.process_query, Calls.initial_call,
    Calls.active_adapter. rewrite Hs, Htools.
  destruct (Client.provider c).
  - rewrite anthropic_query_unfold. cbv zeta. unfold Anthropic.first_call.
    destruct (Anthropic.first_response _ _ _ _ _ _) as [content | e].
    + match goal with |- context [Anthropic.loop _ _ _ _ _ _ ?st1] =>
        destruct (anthropic_loop_calls w s (Client.anthropic c)
                    (Client.full_model_name c)
                    (Registry.anthropic_tools tools) content st1)
          as (d & -> & Hall)
      end.
      eexists _, (Anthropic.d_log d). simpl.
      split; [by rewrite <- !app_assoc |]. by split.
    + eexists _, []. simpl. split; [by rewrite <- !app_assoc |]. by split.
  - rewrite openai_query_unfold. cbv zeta. unfold OpenAI.first_call.
    destruct (OpenAI.first_response _ _ _ _ _ _) as [[| m ms] | e].
    + eexists _, []. simpl. split; [by rewrite <- !app_assoc |]. by split.
    + match goal with |- context [OpenAI.loop _ _ _ _ _ ?st1] =>
        destruct (openai_loop_calls w s (Client.openai c)
                    (Client.full_model_name c) (OpenAI.requested m) st1)
          as (d & -> & Hall)
      end.
      eexists _, (OpenAI.d_log d). simpl.
      split; [by rewrite <- !app_assoc |]. by split.
    + eexists _, []. simpl. split; [by rewrite <- !app_assoc |]. by split.
Qed.

(** X9.  All calls of a query go to one place.  After the tool listing, the
    initial provider call is made through the adapter of the active
    provider, for the client's wire model, on the conversation
    [[user query]] and with the tool schema of that provider.  Every later
    call is either a tool call on the client's session or a provider call
    through the same adapter and for the same model; the other provider is
    never called, and no second tool listing is made.  The follow-up calls
    of provider A carry the same tool schema, those of provider B carry no
    tool schema at all. *)
Theorem query_calls_are_uniform w c query log0 s tools :
  Client.session c = Some s →
  list_tools w log0 s = Ok tools →
  ∃ first rest,
    (Client.process_query w c query log0).2
    = log0 ++ EvListTools s (Ok tools) :: first :: rest
    ∧ Calls.initial_call c query tools first
    ∧ Forall (Calls.later_call (Client.provider c) (Calls.active_adapter c)
                (Client.full_model_name c) s
                (Calls.later_schema (Client.provider c) tools)) rest.
Proof. apply process_query_calls. Qed.

Lemma query_calls_are_uniform_witness :
  let w := Script.three_requests in
  let c := Script.connected Client.OPENAI in
  Client.session c = Some 7
  ∧ list_tools w [] 7 = Ok []
  ∧ ∃ first rest,
      (Client.process_query w c "hello" []).2
      = [] ++ EvListTools 7 (Ok []) :: first :: rest
      ∧ Calls.initial_call c "hello" [] first
      ∧ Forall (Calls.later_call Client.OPENAI (Some "sk-oai")
                  (Some "gpt-4-turbo") 7 None) rest.
Proof.
  intros w c. split; [reflexivity |]. split; [reflexivity |].
  exact (query_calls_are_uniform w c "hello" [] 7 [] eq_refl eq_refl).
Defined.

(** X10.  A [use <provider>] line without a model that moves to the other
    provider leaves the client without a model: both [model_name] and
    [full_model_name] are unset (the default that the freshly constructed
    client chose is not taken over), and the initial provider call of the
    next query is made with no model. *)
Theorem switch_without_model_leaves_none w env c line query log0 s tools :
  let provider_str := (Client.parse_use (Py.strip line)).1 in
  let p := if String.eqb provider_str "openai"
           then Client.OPENAI else Client.ANTHROPIC in
  Client.is_use (Py.strip line) = true →
  Client.supported provider_str = true →
  (Client.parse_use (Py.strip line)).2 = None →
  p ≠ Client.provider c →
  Py.truthy (Client.api_key_of env p) = true →
  Client.session c = Some s →
  list_tools w log0 s = Ok tools →
  let '(_, c', out, log1) := Client.chat_step w env c line log0 in
  Client.provider c' = p
  ∧ Client.model_name c' = None
  ∧ Client.full_model_name c' = None
  ∧ out = [Client.PSwitched p None]
  ∧ log1 = log0
  ∧ ∃ first rest,
      (Client.process_query w c' query log1).2
      = log0 ++ EvListTools s (Ok tools) :: first :: rest
      ∧ match first with
        | EvAnthropic a m _ _ _ =>
            p = Client.ANTHROPIC ∧ a = Client.api_key_of env p ∧ m = None
        | EvOpenAI a m _ _ _ =>
            p = Client.OPENAI ∧ a = Client.api_key_of env p ∧ m = None
        | _ => False
        end.
Proof.
  intros provider_str p Huse Hsup Hnone Hp Hkey Hs Htools.
  unfold Client.chat_step. rewrite (use_is_not_quit _ Huse).
  unfold Client.is_use in *. rewrite Huse.
  rewrite (switch_unfold env c (Py.strip line) Hsup).
  fold provider_str p. rewrite Hnone.
  replace (Client.provider_eqb p (Client.provider c)) with false
    by (by destruct p, (Client.provider c)).
  simpl negb. cbn [orb].
  unfold Client.__init__. rewrite Hkey.
  set (c' := match p with Client.ANTHROPIC => _ | Client.OPENAI => _ end).
  assert (Hc' : c' = Client.mkClient (Some s) (Client._server_path c) p None
                       None
                       (match p with
                        | Client.ANTHROPIC => Client.api_key_of env p
                        | Client.OPENAI => None
                        end)
                       (match p with
                        | Client.OPENAI => Client.api_key_of env p
                        | Client.ANTHROPIC => None
                        end)).
  { subst c'. rewrite Hs. by destruct p. }
  clearbody c'. subst c'. simpl.
  repeat split; try done.
  destruct (process_query_calls w
              (Client.mkClient (Some s) (Client._server_path c) p None None
                 (match p with
                  | Client.ANTHROPIC => Client.api_key_of env p
                  | Client.OPENAI => None
                  end)
                 (match p with
                  | Client.OPENAI => Client.api_key_of env p
                  | Client.ANTHROPIC => None
                  end)) query log0 s tools eq_refl Htools)
    as (first & rest & Hlog & Hfirst & _).
  exists first, rest. split; [done |].
  unfold Calls.initial_call in Hfirst. simpl in Hfirst.
  destruct p, first; try done; by destruct Hfirst as (-> & -> & _).
Qed.

Lemma switch_without_model_leaves_none_witness :
  let w := Script.three_requests in
  let c := Script.connected Client.ANTHROPIC in
  Client.is_use (Py.strip "use openai") = true
  ∧ (Client.parse_use (Py.strip "use openai")).2 = None
  ∧ let '(_, c', out, log1) :=
      Client.chat_step w Script.environ c "use openai" [] in
    Client.provider c' = Client.OPENAI
    ∧ Client.model_name c' = None
    ∧ Client.full_model_name c' = None
    ∧ out = [Client.PSwitched Client.OPENAI None]
    ∧ log1 = []
    ∧ ∃ first rest,
        (Client.process_query w c' "hello" log1).2
        = [] ++ EvListTools 7 (Ok []) :: first :: rest
        ∧ match first with
          | EvAnthropic a m _ _ _ => False
          | EvOpenAI a m _ _ _ => a = Some "sk-oai" ∧ m = None
          | _ => False
          end.
Proof.
  intros w c. split; [reflexivity |]. split; [reflexivity |].
  pose proof (switch_without_model_leaves_none w Script.environ c
                "use openai" "hello" [] 7 [] eq_refl eq_refl eq_refl
                ltac:(discriminate) eq_refl eq_refl eq_refl) as H.
  destruct (Client.chat_step w Script.environ c "use openai" [])
    as [[[ctl c'] out] log1].
  destruct H as (H1 & H2 & H3 & H4 & H5 & first & rest & H6 & H7).
  subst log1. repeat split; try done. exists first, rest.
  split; [exact H6 |].
  destruct first; try done; [by destruct H7 | by destruct H7 as (_ & -> & ->)].
Defined.

(** ** A response without tool requests *)




(** ** The conversation that provider A ends up with *)

Lemma anthropic_loop_entries w s adapter model tools content st :
  ∃ d xs,
    Anthropic.loop w s adapter model tools content st
    = Anthropic.extend st d
    ∧ Anthropic.d_messages d = flat_map Shape.entry xs
    ∧ omap Shape.block_id (Anthropic.d_content d) = map fst xs
    ∧ Anthropic.d_content d `sublist_of` content.
Proof.
  destruct (anthropic_loop_delta w s adapter model tools
              (λ c d, ∃ xs,
                 Anthropic.d_messages d = flat_map Shape.entry xs
                 ∧ omap Shape.block_id (Anthropic.d_content d) = map fst xs
                 ∧ Anthropic.d_content d `sublist_of` c))
    with (content := content) (st := st) as (d & Hd & xs & H);
    [| | | by exists d, xs].
  - by exists [].
  - intros c1 c2 d1 d2 (xs1 & M1 & I1 & S1) (xs2 & M2 & I2 & S2).
    exists (xs1 ++ xs2). simpl.
    rewrite flat_map_app, omap_app, map_app, M1, M2, I1, I2.
    split; [done |]. split; [done |]. by apply sublist_app.
  - intros st' b d Hd.
    destruct Hd as [text | type | id tool_name tool_args e _
                   | id tool_name tool_args res sent r _ _].
    + by exists [].
    + exists []. repeat split; try done. apply sublist_nil_l.
    + exists []. repeat split; try done. apply sublist_nil_l.
    + by exists [(id, tool_result_text res)].
Qed.

Lemma resolve_entries shared xs :
  map (Anthropic.resolve_message shared) (flat_map Shape.entry xs)
  = flat_map (Shape.wire_entry shared) xs.
Proof. induction xs as [| x xs IH]; simpl; by rewrite ?IH. Qed.

Lemma anthropic_conversation w s adapter model tools query log0 :
  let st := (Anthropic._process_anthropic_query w s adapter model tools
               query log0).2 in
  ∃ xs,
    Anthropic.resolve st
    = AUser query
      :: flat_map (Shape.wire_entry (Anthropic.assistant_message_content st))
           xs
    ∧ omap Shape.block_id (Anthropic.assistant_message_content st)
      = map fst xs
    ∧ Anthropic.assistant_message_content st
      `sublist_of`
      match Anthropic.first_response w adapter model tools query log0 with
      | Ok content => content
      | Err _ => []
      end.
Proof.
  cbv zeta. rewrite anthropic_query_unfold. cbv zeta.
  destruct (Anthropic.first_response _ _ _ _ _ _) as [content | e].
  - match goal with |- context [Anthropic.loop _ _ _ _ _ _ ?st1] =>
      destruct (anthropic_loop_entries w s adapter model tools content st1)
        as (d & xs & -> & HM & HI & HS)
    end.
    exists xs. unfold Anthropic.resolve. simpl.
    by rewrite HM, resolve_entries.
  - by exists [].
Qed.


Lemma block_marks_no_result id bs :
  List.filter (Trace.is_res id) (map Trace.mark_of_block bs) = [].
Proof. induction bs as [| [] bs IH]; simpl; by rewrite ?IH. Qed.

Lemma block_marks_no_request id bs :
  omap Shape.block_id bs = [] →
  List.filter (Trace.is_req id) (map Trace.mark_of_block bs) = [].
Proof. induction bs as [| [] bs IH]; csimpl; intros H; try done; auto. Qed.

Lemma block_marks_skipped bs tail :
  omap Shape.block_id bs = [] →
  Trace.well_answered (map Trace.mark_of_block bs ++ tail)
  = Trace.well_answered tail.
Proof. induction bs as [| [] bs IH]; csimpl; intros H; try done; auto. Qed.

Lemma one_request_answered id bs text :
  omap Shape.block_id bs = [id] →
  Trace.well_answered
    (Trace.marks_of_anthropic [AAssistant bs; AToolResult id text]) = true.
Proof.
  unfold Trace.marks_of_anthropic. simpl.
  induction bs as [| b bs IH]; [done |].
  destruct b as [t | id' n a | ty]; csimpl; intros H; auto.
  injection H as -> H.
  rewrite List.filter_app, !length_app, block_marks_no_result.
  rewrite List.filter_app, block_marks_no_request by done.
  simpl. rewrite String.eqb_refl. simpl.
  by rewrite block_marks_skipped.
Qed.

Lemma sublist_omap_length {A B} (f : A → option B) (l1 l2 : list A) :
  l1 `sublist_of` l2 → (length (omap f l1) ≤ length (omap f l2))%nat.
Proof.
  induction 1 as [| x l1 l2 _ IH | x l1 l2 _ IH]; csimpl; [done | |];
    destruct (f x); simpl; lia.
Qed.

(** X13.  When the first response of provider A holds at most one tool-use
    block, the conversation at the end of the query is well formed: the
    request, if it was appended, appears once and is followed by exactly
    one result with its id. *)
Theorem anthropic_single_request_is_answered w s adapter model tools query
    log0 content :
  Anthropic.first_response w adapter model tools query log0 = Ok content →
  (length (omap Trace.tool_use_of content) ≤ 1)%nat →
  Trace.well_answered
    (Trace.marks_of_anthropic
       (Anthropic.resolve
          (Anthropic._process_anthropic_query w s adapter model tools
             query log0).2)) = true.
Proof.
  intros Hfirst Hone.
  destruct (anthropic_conversation w s adapter model tools query log0)
    as (xs & -> & Hids & Hsub).
  rewrite Hfirst in Hsub.
  apply (sublist_omap_length Shape.block_id) in Hsub.
  assert (Hlen : (length xs ≤ 1)%nat).
  { rewrite <- (length_map fst), <- Hids.
    etrans; [exact Hsub |]. etrans; [| exact Hone].
    clear. induction content as [| [] content IH]; csimpl; lia. }
  destruct xs as [| [id text] [| x xs]]; simpl in Hlen; [done | | lia].
  simpl in *. by apply (one_request_answered id _ text).
Qed.

Lemma anthropic_single_request_is_answered_witness :
  let w := Script.asks_again in
  Anthropic.first_response w (Some "sk-ant") None [] "hello" []
  = Ok [ToolUse "id1" "get_weather" (JObj [])]
  ∧ Trace.well_answered
      (Trace.marks_of_anthropic
         (Anthropic.resolve
            (Anthropic._process_anthropic_query w 7 (Some "sk-ant") None []
               "hello" []).2)) = true.
Proof.
  intros w. split; [reflexivity |].
  apply (anthropic_single_request_is_answered w 7 (Some "sk-ant") None []
           "hello" [] [ToolUse "id1" "get_weather" (JObj [])] eq_refl).
  vm_compute. lia.
Defined.

(** ** The conversation that provider B ends up with *)

(** X14.  When the tool calls of provider B's first response carry distinct
    ids, the conversation at the end of the query is well formed: after the
    user turn it consists of whole exchanges, each request appears once and
    is directly followed by the one result with its id. *)
Theorem openai_requests_are_answered w s adapter model tools query log0
    message choices :
  OpenAI.first_response w adapter model tools query log0
  = Ok (message :: choices) →
  NoDup (map tc_id (OpenAI.requested message)) →
  let st := (OpenAI._process_openai_query w s adapter model tools
               query log0).2 in
  (∃ xs, OpenAI.messages st = OUser query :: flat_map Trace.exchange xs)
  ∧ Trace.well_answered (Trace.marks_of_openai (OpenAI.messages st)) = true.
Proof.
  intros Hfirst Hnd. cbv zeta. rewrite openai_query_unfold. cbv zeta.
  rewrite Hfirst.
  match goal with |- context [OpenAI.loop _ _ _ _ _ ?st1] =>
    destruct (openai_loop_exchange_ids w s adapter model
                (OpenAI.requested message) st1) as (xs & Hxs & Hsub)
  end.
  cbn [snd]. rewrite Hxs. simpl. split; [by exists xs |].
  apply exchanges_well_answered. by eapply sublist_NoDup.
Qed.

Lemma openai_requests_are_answered_witness :
  let w := Script.three_requests in
  OpenAI.first_response w (Some "sk-oai") None [] "hello" []
  = Ok [mkOMessage None (Some Script.three_calls)]
  ∧ NoDup (map tc_id Script.three_calls)
  ∧ Trace.well_answered
      (Trace.marks_of_openai
         (OpenAI.messages
            (OpenAI._process_openai_query w 7 (Some "sk-oai") None []
               "hello" []).2)) = true.
Proof.
  intros w.
  assert (Hnd : NoDup (map tc_id Script.three_calls)).
  { apply (bool_decide_unpack _). by vm_compute. }
  split; [reflexivity |]. split; [exact Hnd |].
  exact (proj2 (openai_requests_are_answered w 7 (Some "sk-oai") None []
                  "hello" [] (mkOMessage None (Some Script.three_calls)) []
                  eq_refl Hnd)).
Defined.

(** X15.  Only tool calls that succeeded add to the conversation: when a
    query function returns, the conversation holds the user turn and two
    entries per successful tool call, none for a call that failed or whose
    arguments did not decode. *)
Theorem conversation_grows_by_successes w s adapter model tools query log0 :
  (∃ first rest,
     Anthropic.log
       (Anthropic._process_anthropic_query w s adapter model tools
          query log0).2 = log0 ++ first :: rest
     ∧ length (Anthropic.messages
                 (Anthropic._process_anthropic_query w s adapter model tools
                    query log0).2) = 1 + 2 * Trace.successes rest)
  ∧ (∃ first rest,
       OpenAI.log
         (OpenAI._process_openai_query w s adapter model tools
            query log0).2 = log0 ++ first :: rest
       ∧ length (OpenAI.messages
                   (OpenAI._process_openai_query w s adapter model tools
                      query log0).2) = 1 + 2 * Trace.successes rest).
Proof. apply conversation_length. Qed.

(** ** Connecting and cleaning up *)

(** X16.  A server script whose path ends in neither [.py] nor [.js] is
    refused before anything is started: no process is spawned, no session is
    opened, [session] and the exit stack are as before.  The path has
    already been stored in [_server_path] by then. *)
Theorem connect_refuses_other_scripts h w inst path hlog log :
  Lifecycle.endswith path ".py" = false →
  Lifecycle.endswith path ".js" = false →
  Lifecycle.connect_to_server h w inst path hlog log
  = (Lifecycle.mkInstance
       (Client.mkClient (Client.session (Lifecycle.self inst)) (Some path)
          (Client.provider (Lifecycle.self inst))
          (Client.model_name (Lifecycle.self inst))
          (Client.full_model_name (Lifecycle.self inst))
          (Client.anthropic (Lifecycle.self inst))
          (Client.openai (Lifecycle.self inst)))
       (Lifecycle.exit_stack inst) (Lifecycle.stdio inst),
     Err "Server script must be a .py or .js file", hlog, log).
Proof.
  intros Hpy Hjs. unfold Lifecycle.connect_to_server.
  by rewrite Hpy, Hjs.
Qed.

Lemma connect_refuses_other_scripts_witness :
  let inst := Lifecycle.mkInstance (Script.connected Client.ANTHROPIC)
                [] None in
  Lifecycle.endswith "server.PY" ".py" = false
  ∧ Lifecycle.endswith "server.PY" ".js" = false
  ∧ (Lifecycle.connect_to_server Lifecycle.obliging Script.asks_again inst
       "server.PY" [] []).1.1.2
    = Err "Server script must be a .py or .js file".
Proof.
  intros inst. split; [reflexivity |]. split; [reflexivity |].
  by rewrite (connect_refuses_other_scripts Lifecycle.obliging
                Script.asks_again inst "server.PY" [] [] eq_refl eq_refl).
Defined.

(** What [connect_to_server] does on every path: only the attributes
    [_server_path] and [session] of the client change, the host log grows
    by calls that release nothing, and the exit stack grows by exactly the
    resources that these calls acquired. *)
Lemma connect_accounts h w inst path hlog log :
  let '(inst', r, hlog', log') :=
    Lifecycle.connect_to_server h w inst path hlog log in
  ∃ new,
    hlog' = hlog ++ new
    ∧ Lifecycle.released new = []
    ∧ Lifecycle.exit_stack inst'
      = Lifecycle.exit_stack inst ++ Lifecycle.acquired new
    ∧ Client._server_path (Lifecycle.self inst') = Some path
    ∧ Client.provider (Lifecycle.self inst')
      = Client.provider (Lifecycle.self inst)
    ∧ Client.full_model_name (Lifecycle.self inst')
      = Client.full_model_name (Lifecycle.self inst)
    ∧ Client.anthropic (Lifecycle.self inst')
      = Client.anthropic (Lifecycle.self inst)
    ∧ Client.openai (Lifecycle.self inst')
      = Client.openai (Lifecycle.self inst)
    ∧ log `prefix_of` log'
    ∧ match r with
      | Ok tools =>
          ∃ t s,
            new = [Lifecycle.HStdio (if Lifecycle.endswith path ".py"
                           then "python" else "node") [path] (Ok t);
                   Lifecycle.HSession t (Ok s); Lifecycle.HInitialize s (Ok tt)]
            ∧ Client.session (Lifecycle.self inst') = Some s
            ∧ Lifecycle.stdio inst' = Some t
            ∧ log' = log ++ [EvListTools s (Ok tools)]
      | Err _ =>
          log' = log
          ∨ ∃ s e, log' = log ++ [EvListTools s (Err e)]
      end.
Proof.
  unfold Lifecycle.connect_to_server.
  destruct (negb _) eqn:Hext.
  { exists []. rewrite !app_nil_r. repeat split; try done. by left. }
  set (command := if Lifecycle.endswith path ".py" then _ else _).
  destruct (Lifecycle.stdio_client h hlog command [path]) as [t | e].
  2: { eexists [_].
       repeat split; simpl; rewrite ?app_nil_r; try done. by left. }
  destruct (Lifecycle.client_session h _ t) as [s | e].
  2: { eexists [_; _]. rewrite <- app_assoc.
       repeat split; simpl; rewrite ?app_nil_r; try done. by left. }
  destruct (Lifecycle.initialize h _ s) as [[] | e].
  2: { eexists [_; _; _]. rewrite <- !app_assoc.
       repeat split; simpl; rewrite <- ?app_assoc; try done. by left. }
  eexists [_; _; _]. rewrite <- !app_assoc.
  split; [done |]. split; [done |].
  split; [simpl; by rewrite <- app_assoc |].
  do 5 (split; [done |]).
  split; [by apply prefix_app_r |].
  destruct (list_tools w log s) as [tools | e].
  - by exists t, s.
  - right. by exists s, e.
Qed.

(** X17.  A connection that succeeds ran, in this order and each with
    success, the interpreter chosen by the extension ([python] for [.py],
    [node] otherwise) on the script, the session on the transport it got,
    the session's initialization and one tool listing, whose tools are the
    result.  Afterwards [session] is set to that session, the exit stack
    holds the transport and then the session on top of what it held, and
    provider, model and adapters are untouched. *)
Theorem connect_success_sets_session h w inst path hlog log inst' tools
    hlog' log' :
  Lifecycle.connect_to_server h w inst path hlog log
  = (inst', Ok tools, hlog', log') →
  ∃ t s,
    hlog' = hlog ++ [Lifecycle.HStdio (if Lifecycle.endswith path ".py"
                             then "python" else "node") [path] (Ok t);
                     Lifecycle.HSession t (Ok s); Lifecycle.HInitialize s (Ok tt)]
    ∧ log' = log ++ [EvListTools s (Ok tools)]
    ∧ Lifecycle.exit_stack inst'
      = Lifecycle.exit_stack inst
        ++ [Lifecycle.Transport t; Lifecycle.Session s]
    ∧ Lifecycle.self inst'
      = Client.mkClient (Some s) (Some path)
          (Client.provider (Lifecycle.self inst))
          (Client.model_name (Lifecycle.self inst))
          (Client.full_model_name (Lifecycle.self inst))
          (Client.anthropic (Lifecycle.self inst))
          (Client.openai (Lifecycle.self inst)).
Proof.
  unfold Lifecycle.connect_to_server.
  destruct (negb _); [done |].
  set (command := if Lifecycle.endswith path ".py" then _ else _).
  destruct (Lifecycle.stdio_client h hlog command [path]) as [t | e];
    [| done].
  destruct (Lifecycle.client_session h _ t) as [s | e]; [| done].
  destruct (Lifecycle.initialize h _ s) as [[] | e]; [| done].
  intros [= <- Htools <- <-]. exists t, s. rewrite Htools. simpl.
  by rewrite <- !app_assoc.
Qed.

Lemma connect_success_sets_session_witness :
  let inst := Lifecycle.mkInstance
                (Client.mkClient None None Client.ANTHROPIC
                   (Some "claude-3-opus") (Some "claude-3-opus-latest")
                   (Some "sk-ant") None) [] None in
  ∃ inst' hlog' log',
    Lifecycle.connect_to_server Lifecycle.obliging Script.asks_again inst
      "tools/server.js" [] [] = (inst', Ok [], hlog', log')
    ∧ hlog' = [Lifecycle.HStdio "node" ["tools/server.js"] (Ok 3);
               Lifecycle.HSession 3 (Ok 7); Lifecycle.HInitialize 7 (Ok tt)]
    ∧ Client.session (Lifecycle.self inst') = Some 7.
Proof.
  intros inst. eexists _, _, _. split; [reflexivity |].
  destruct (connect_success_sets_session Lifecycle.obliging
              Script.asks_again inst "tools/server.js" [] [] _ _ _ _
              eq_refl) as (t & s & Hh & _ & _ & Hself).
  split; [reflexivity | reflexivity].
Defined.

Lemma process_query_lists_first w c query log s :
  Client.session c = Some s →
  ∃ rest,
    (Client.process_query w c query log).2
    = log ++ EvListTools s (list_tools w log s) :: rest.
Proof.
  intros Hs. destruct (list_tools w log s) as [tools | e] eqn:Htools.
  - destruct (process_query_run w c query log s tools Hs Htools)
      as (first & rest & n & ls & -> & _).
    by exists (first :: rest).
  - exists []. unfold Client.process_query. by rewrite Hs, Htools.
Qed.

(** X18.  When the session fails to initialize, [connect_to_server] raises
    the failure, but [session] has already been assigned and the transport
    and the session stay on the exit stack.  A later [process_query]
    therefore passes the "Not connected" guard and goes on to list the
    tools of that session. *)
Theorem failed_handshake_leaves_session_set h w inst path hlog log t s e :
  let command := if Lifecycle.endswith path ".py"
                 then "python" else "node" in
  Lifecycle.endswith path ".py" || Lifecycle.endswith path ".js" = true →
  Lifecycle.stdio_client h hlog command [path] = Ok t →
  Lifecycle.client_session h
    (hlog ++ [Lifecycle.HStdio command [path] (Ok t)]) t = Ok s →
  Lifecycle.initialize h
    ((hlog ++ [Lifecycle.HStdio command [path] (Ok t)])
       ++ [Lifecycle.HSession t (Ok s)]) s = Err e →
  let '(inst', r, hlog', log') :=
    Lifecycle.connect_to_server h w inst path hlog log in
  r = Err e
  ∧ Client.session (Lifecycle.self inst') = Some s
  ∧ Lifecycle.exit_stack inst'
    = Lifecycle.exit_stack inst
      ++ [Lifecycle.Transport t; Lifecycle.Session s]
  ∧ log' = log
  ∧ ∀ query, ∃ rest,
      (Client.process_query w (Lifecycle.self inst') query log').2
      = log ++ EvListTools s (list_tools w log s) :: rest.
Proof.
  intros command Hext Hstdio Hsession Hinit.
  unfold Lifecycle.connect_to_server. rewrite Hext. fold command.
  cbn [negb]. rewrite Hstdio, Hsession, Hinit.
  split; [done |]. split; [done |].
  split; [simpl; by rewrite <- app_assoc |]. split; [done |].
  intros query. by apply process_query_lists_first.
Qed.

Lemma failed_handshake_leaves_session_set_witness :
  let inst := Lifecycle.mkInstance
                (Client.mkClient None None Client.ANTHROPIC
                   (Some "claude-3-opus") (Some "claude-3-opus-latest")
                   (Some "sk-ant") None) [] None in
  Lifecycle.initialize Lifecycle.refusing
    [Lifecycle.HStdio "python" ["server.py"] (Ok 3);
     Lifecycle.HSession 3 (Ok 7)] 7 = Err "handshake failed"
  ∧ let '(inst', r, hlog', log') :=
      Lifecycle.connect_to_server Lifecycle.refusing Script.asks_again inst
        "server.py" [] [] in
    r = Err "handshake failed"
    ∧ Client.session (Lifecycle.self inst') = Some 7
    ∧ Lifecycle.exit_stack inst'
      = [Lifecycle.Transport 3; Lifecycle.Session 7].
Proof.
  intros inst. split; [reflexivity |].
  pose proof (failed_handshake_leaves_session_set Lifecycle.refusing
                Script.asks_again inst "server.py" [] [] 3 7
                "handshake failed" eq_refl eq_refl eq_refl eq_refl) as H.
  destruct (Lifecycle.connect_to_server Lifecycle.refusing
              Script.asks_again inst "server.py" [] [])
    as [[[inst' r] hlog'] log'].
  by destruct H as (? & ? & ? & _).
Defined.

Lemma released_closes l :
  Lifecycle.released (map Lifecycle.HClose l) = l.
Proof. induction l as [| x l IH]; csimpl; by rewrite ?IH. Qed.

Lemma acquired_closes l :
  Lifecycle.acquired (map Lifecycle.HClose l) = [].
Proof. induction l as [| x l IH]; csimpl; by rewrite ?IH. Qed.

(** X19.  Whatever [connect_to_server] acquired, on whichever path it
    ended, [cleanup] releases: after connecting on a fresh exit stack and
    cleaning up, the resources released are exactly the resources acquired,
    last one first.  The exit stack is then empty, so a second [cleanup]
    does nothing; the client, its [session] included, is not reset. *)
Theorem cleanup_releases_what_connect_acquired h w c path log :
  let inst := Lifecycle.mkInstance c [] None in
  let '(inst1, r, hlog1, log1) :=
    Lifecycle.connect_to_server h w inst path [] log in
  let '(inst2, hlog2) := Lifecycle.cleanup inst1 hlog1 in
  Lifecycle.released hlog2 = rev (Lifecycle.acquired hlog2)
  ∧ Lifecycle.exit_stack inst2 = []
  ∧ Lifecycle.self inst2 = Lifecycle.self inst1
  ∧ Lifecycle.cleanup inst2 hlog2 = (inst2, hlog2).
Proof.
  intros inst.
  pose proof (connect_accounts h w inst path [] log) as H.
  destruct (Lifecycle.connect_to_server h w inst path [] log)
    as [[[inst1 r] hlog1] log1].
  destruct H as (new & -> & Hrel & Hstack & _).
  unfold Lifecycle.cleanup. simpl in *.
  unfold Lifecycle.released, Lifecycle.acquired in *.
  rewrite !omap_app. fold (Lifecycle.released new).
  fold (Lifecycle.acquired new).
  fold (Lifecycle.released
          (map Lifecycle.HClose (rev (Lifecycle.exit_stack inst1)))).
  fold (Lifecycle.acquired
          (map Lifecycle.HClose (rev (Lifecycle.exit_stack inst1)))).
  rewrite released_closes, acquired_closes, Hstack, app_nil_r.
  unfold Lifecycle.released. rewrite Hrel. simpl.
  by rewrite app_nil_r.
Qed.

(** X20.  [main] releases what it acquired.  When the client cannot be
    constructed (API key missing) it prints that error and returns, having
    started and released nothing.  Otherwise, once [main] has returned -
    because the connection failed or because the chat loop was left with
    [quit] - the resources released are exactly the resources acquired, last
    one first, and the exit stack is empty; while the chat loop is still
    reading input nothing has been released. *)
Theorem main_releases_what_it_acquired h w env args inputs :
  let p := if String.eqb (Lifecycle.provider args) "anthropic"
           then Client.ANTHROPIC else Client.OPENAI in
  let o := Lifecycle.main h w env args inputs in
  match Lifecycle.final o with
  | None =>
      Py.truthy (Client.api_key_of env p) = false
      ∧ o = Lifecycle.mkOutcome [Lifecycle.WError (Client.key_not_set p)]
              [] [] true None
  | Some inst =>
      Py.truthy (Client.api_key_of env p) = true
      ∧ Lifecycle.released (Lifecycle.host_log o)
        = (if Lifecycle.returned o
           then rev (Lifecycle.acquired (Lifecycle.host_log o)) else [])
      ∧ (if Lifecycle.returned o then Lifecycle.exit_stack inst = []
         else Lifecycle.exit_stack inst
              = Lifecycle.acquired (Lifecycle.host_log o))
  end.
Proof.
  intros p o. subst o. unfold Lifecycle.main, Lifecycle.construct.
  fold p. pose proof (init_outcome env p (Lifecycle.model args)) as Hinit.
  destruct (Client.__init__ env p (Lifecycle.model args)) as [c | e].
  2: { destruct Hinit as [Hkey ->]. by split. }
  pose proof (connect_accounts h w (Lifecycle.mkInstance c [] None)
                (Lifecycle.server_script args) [] []) as H.
  destruct (Lifecycle.connect_to_server h w _ _ [] [])
    as [[[inst1 r] hlog1] log1].
  destruct H as (new & -> & Hrel & Hstack & _). simpl in *.
  assert (Hclosed :
            Lifecycle.released
              (new ++ map Lifecycle.HClose (rev (Lifecycle.exit_stack inst1)))
            = rev (Lifecycle.acquired
                     (new ++ map Lifecycle.HClose
                               (rev (Lifecycle.exit_stack inst1))))).
  { unfold Lifecycle.released, Lifecycle.acquired in *.
    rewrite !omap_app. rewrite Hrel.
    fold (Lifecycle.released
            (map Lifecycle.HClose (rev (Lifecycle.exit_stack inst1)))).
    fold (Lifecycle.acquired
            (map Lifecycle.HClose (rev (Lifecycle.exit_stack inst1)))).
    rewrite released_closes, acquired_closes, Hstack, app_nil_r.
    done. }
  destruct r as [tools | e]; simpl; [| by repeat split].
  destruct (Lifecycle.chat_lines w env (Lifecycle.self inst1) inputs log1)
    as [[[ctl c'] out] log2].
  destruct ctl; simpl; by repeat split.
Qed.

(** ** The session state of the web front end *)

Lemma lookup_set_default key v (state : gmap string UI.value) i :
  UI.set_default key v state !! i
  = match state !! i with
    | Some x => Some x
    | None => if decide (key = i) then Some v else None
    end.
Proof.
  unfold UI.set_default.
  destruct (state !! key) as [y |] eqn:Hkey.
  - destruct (state !! i) eqn:Hi; [done |].
    case_decide; [congruence | done].
  - rewrite lookup_insert. case_decide; [subst; by rewrite Hkey |].
    by destruct (state !! i).
Qed.

Lemma initialize_is_union (state : gmap string UI.value) :
  UI.initialize_session_state state = state ∪ UI.defaults.
Proof.
  apply map_eq. intros i. unfold UI.initialize_session_state.
  rewrite !lookup_set_default, lookup_union.
  destruct (state !! i) as [x |]; simpl.
  - by destruct (UI.defaults !! i).
  - unfold UI.defaults. simpl. rewrite !lookup_insert, lookup_empty.
    repeat case_decide; try done; congruence.
Qed.

(** X21.  [initialize_session_state] fills in what is missing and nothing
    else: the result is the given state with the six defaults added for the
    keys it lacks.  Every entry that was there keeps its value, and running
    it again (as happens on every rerun of the page) changes nothing. *)
Theorem initialize_session_state_fills_gaps (state : gmap string UI.value) :
  UI.initialize_session_state state = state ∪ UI.defaults
  ∧ state ⊆ UI.initialize_session_state state
  ∧ UI.initialize_session_state (UI.initialize_session_state state)
    = UI.initialize_session_state state.
Proof.
  rewrite !initialize_is_union. split; [done |]. split.
  - apply map_union_subseteq_l.
  - by rewrite <- (assoc_L (∪)), (idemp_L (∪) UI.defaults).
Qed.

(** ** Reading a [use ...] line *)

Lemma sapp_cons c (x y : string) : String c x +:+ y = String c (x +:+ y).
Proof. reflexivity. Qed.

Lemma sapp_nil_l (x : string) : "" +:+ x = x.
Proof. reflexivity. Qed.

#[local] Ltac ssimpl :=
  repeat first [rewrite sapp_cons | rewrite sapp_nil_l | progress simpl].

Lemma sapp_assoc (x y z : string) : (x +:+ y) +:+ z = x +:+ (y +:+ z).
Proof. induction x as [| c x IH]; ssimpl; by rewrite ?IH. Qed.

Lemma sapp_nil_r (x : string) : x +:+ "" = x.
Proof. induction x as [| c x IH]; ssimpl; by rewrite ?IH. Qed.

Lemma reverse_onto_app (x acc : string) :
  Py.reverse_onto x acc = Py.reverse x +:+ acc.
Proof.
  unfold Py.reverse. revert acc.
  induction x as [| c x IH]; intros acc; ssimpl; [done |].
  rewrite (IH (String c acc)), (IH (String c "")).
  rewrite sapp_assoc. by ssimpl.
Qed.

Lemma reverse_cons c (x : string) :
  Py.reverse (String c x) = Py.reverse x +:+ String c "".
Proof. unfold Py.reverse at 1. ssimpl. apply reverse_onto_app. Qed.

Lemma reverse_app (x y : string) :
  Py.reverse (x +:+ y) = Py.reverse y +:+ Py.reverse x.
Proof.
  induction x as [| c x IH]; ssimpl.
  - by rewrite sapp_nil_r.
  - by rewrite !reverse_cons, IH, sapp_assoc.
Qed.

Lemma reverse_involutive (x : string) : Py.reverse (Py.reverse x) = x.
Proof.
  induction x as [| c x IH]; [done |].
  by rewrite reverse_cons, reverse_app, IH.
Qed.

Lemma all_app P (x y : string) :
  Words.all P (x +:+ y) = Words.all P x && Words.all P y.
Proof. induction x as [| c x IH]; ssimpl; [done |]. by rewrite IH, andb_assoc. Qed.

Lemma all_reverse P (x : string) :
  Words.all P (Py.reverse x) = Words.all P x.
Proof.
  induction x as [| c x IH]; [done |].
  rewrite reverse_cons, all_app, IH. ssimpl.
  by rewrite andb_true_r, andb_comm.
Qed.

Lemma lstrip_blank (b x : string) :
  Words.blank b = true → Py.lstrip (b +:+ x) = Py.lstrip x.
Proof.
  induction b as [| c b IH]; ssimpl; [done |].
  intros [Hc Hb]%andb_true_iff. rewrite Hc. auto.
Qed.

Lemma lstrip_word (p x : string) :
  Words.word p = true → Py.lstrip (p +:+ x) = p +:+ x.
Proof.
  destruct p as [| c p]; [done |]. unfold Words.word. ssimpl.
  intros [[Hc _]%andb_true_iff _]%andb_true_iff.
  apply negb_true_iff in Hc. by rewrite Hc.
Qed.

Lemma word_reverse (p : string) :
  Words.word p = true → Words.word (Py.reverse p) = true.
Proof.
  unfold Words.word. intros [Hne Hall]%andb_true_iff.
  rewrite all_reverse, Hall, andb_true_r.
  destruct p as [| c p]; [done |]. rewrite reverse_cons.
  by destruct (Py.reverse p).
Qed.

(** A string that starts and ends with a word loses exactly the blanks
    around it. *)
Lemma strip_padded (b1 p y m b2 : string) :
  Words.blank b1 = true → Words.blank b2 = true →
  Words.word p = true → Words.word m = true →
  Py.strip (b1 +:+ (p +:+ y +:+ m) +:+ b2) = p +:+ y +:+ m.
Proof.
  intros Hb1 Hb2 Hp Hm. unfold Py.strip, Py.rstrip.
  rewrite lstrip_blank by done.
  rewrite !sapp_assoc, lstrip_word by done.
  rewrite !reverse_app, !sapp_assoc.
  rewrite lstrip_blank by (by unfold Words.blank; rewrite all_reverse).
  rewrite lstrip_word by (by apply word_reverse).
  rewrite <- !sapp_assoc, <- !reverse_app, reverse_involutive.
  by rewrite !sapp_assoc.
Qed.

Lemma strip_padded_word (b1 p b2 : string) :
  Words.blank b1 = true → Words.blank b2 = true → Words.word p = true →
  Py.strip (b1 +:+ p +:+ b2) = p.
Proof.
  intros Hb1 Hb2 Hp. unfold Py.strip, Py.rstrip.
  rewrite lstrip_blank, lstrip_word by done.
  rewrite reverse_app.
  rewrite lstrip_blank by (by unfold Words.blank; rewrite all_reverse).
  rewrite <- (sapp_nil_r (Py.reverse p)).
  rewrite lstrip_word by (by apply word_reverse).
  by rewrite sapp_nil_r, reverse_involutive.
Qed.

Lemma split_colonless (x : string) :
  Words.all Words.colonless x = true → Py.split ":" x = [x].
Proof.
  induction x as [| c x IH]; ssimpl; [done |].
  intros [Hc Hx]%andb_true_iff. apply negb_true_iff in Hc.
  by rewrite Hc, (IH Hx).
Qed.

Lemma split_at_colon (x y : string) :
  Words.all Words.colonless x = true → Words.all Words.colonless y = true →
  Py.split ":" (x +:+ String ":" y) = [x; y].
Proof.
  intros Hx Hy. induction x as [| c x IH]; ssimpl.
  - by rewrite (split_colonless y Hy).
  - simpl in Hx. apply andb_true_iff in Hx as [Hc Hx].
    apply negb_true_iff in Hc. by rewrite Hc, (IH Hx).
Qed.

Lemma blank_colonless (b : string) :
  Words.blank b = true → Words.all Words.colonless b = true.
Proof.
  induction b as [| c b IH]; ssimpl; [done |].
  intros [Hc Hb]%andb_true_iff. rewrite (IH Hb), andb_true_r.
  unfold Words.colonless. destruct (Ascii.eqb_spec c ":") as [-> |]; [| done].
  discriminate Hc.
Qed.

Lemma word_colonless (p : string) :
  Words.word p = true → Words.all Words.colonless p = true.
Proof.
  unfold Words.word. intros [_ Hall]%andb_true_iff.
  induction p as [| c p IH]; simpl in *; [done |].
  apply andb_true_iff in Hall as [Hc Hp]. rewrite (IH Hp), andb_true_r.
  unfold Words.plain in Hc. by apply andb_true_iff in Hc as [_ Hc].
Qed.

Lemma lower_app (x y : string) :
  Py.lower (x +:+ y) = Py.lower x +:+ Py.lower y.
Proof. induction x as [| c x IH]; ssimpl; by rewrite ?IH. Qed.

Lemma keyword_length kw :
  Py.lower kw = "use " → ∀ x, Py.slice_from 4 (kw +:+ x) = x.
Proof.
  destruct kw as [| a [| b [| c [| d [| e kw]]]]]; try done.
Qed.

(** X22.  How a switch line is read.  After a keyword that reads [use ] in
    any letter case, a provider word and a model word separated by a colon
    are recovered whatever blanks surround them: the provider in lower
    case, the model as written.  Without a colon the line names the
    provider only. *)
Theorem use_line_is_read kw b1 p b2 b3 m b4 :
  Py.lower kw = "use " →
  Words.blank b1 = true → Words.blank b2 = true →
  Words.blank b3 = true → Words.blank b4 = true →
  Words.word p = true → Words.word m = true →
  let line := kw +:+ b1 +:+ (p +:+ (b2 +:+ ":" +:+ b3) +:+ m) +:+ b4 in
  let short := kw +:+ b1 +:+ p +:+ b2 in
  Client.is_use line = true
  ∧ Client.parse_use line = (Py.lower p, Some m)
  ∧ Client.is_use short = true
  ∧ Client.parse_use short = (Py.lower p, None).
Proof.
  intros Hkw Hb1 Hb2 Hb3 Hb4 Hp Hm line short.
  assert (Huse : ∀ x, Client.is_use (kw +:+ x) = true).
  { intros x. unfold Client.is_use, Py.startswith.
    rewrite lower_app, Hkw. ssimpl. by destruct (Py.lower x). }
  split; [apply Huse |]. split; [| split; [apply Huse |]].
  - unfold Client.parse_use, line.
    rewrite (keyword_length kw Hkw), strip_padded by done.
    replace (p +:+ (b2 +:+ ":" +:+ b3) +:+ m)
      with ((p +:+ b2) +:+ String ":" (b3 +:+ m))
      by (by rewrite !sapp_assoc).
    rewrite split_at_colon.
    + cbn [hd]. rewrite <- (sapp_nil_l (p +:+ b2)).
      rewrite <- (sapp_nil_r (b3 +:+ m)), sapp_assoc.
      by rewrite !strip_padded_word.
    + rewrite all_app, (word_colonless p Hp). by apply blank_colonless.
    + rewrite all_app, (word_colonless m Hm), andb_true_r.
      by apply blank_colonless.
  - unfold Client.parse_use, short.
    rewrite (keyword_length kw Hkw), strip_padded_word by done.
    rewrite (split_colonless p) by (by apply word_colonless). cbn [hd].
    rewrite <- (sapp_nil_r p) at 1. rewrite <- (sapp_nil_l (p +:+ "")).
    by rewrite (strip_padded_word "" p "").
Qed.

Lemma use_line_is_read_witness :
  let line := "UsE " +:+ "  "
              +:+ ("OpenAI" +:+ (" " +:+ ":" +:+ " ") +:+ "gpt-4") +:+ " " in
  Py.lower "UsE " = "use "
  ∧ Words.word "OpenAI" = true
  ∧ Words.word "gpt-4" = true
  ∧ Client.is_use line = true
  ∧ Client.parse_use line = ("openai", Some "gpt-4").
Proof.
  intros line. split; [reflexivity |]. split; [reflexivity |].
  split; [reflexivity |].
  destruct (use_line_is_read "UsE " "  " "OpenAI" " " " " "gpt-4" " "
              eq_refl eq_refl eq_refl eq_refl eq_refl eq_refl eq_refl)
    as (H1 & H2 & _).
  split; [exact H1 | exact H2].
Defined.

(** ** Queries typed into the chat loop *)

(** X23.  A failure of the initial provider call does not leave the chat
    loop: the line of the query prints that error, the client is unchanged,
    the calls made are the tool listing and the failed provider call, and
    the loop goes on to the next line. *)
Theorem provider_failure_is_printed w env c input log s tools e :
  Lifecycle.is_quit input = false →
  Client.is_use (Py.strip input) = false →
  Client.session c = Some s →
  list_tools w log s = Ok tools →
  match Client.provider c with
  | Client.ANTHROPIC =>
      Anthropic.first_response w (Client.anthropic c)
        (Client.full_model_name c) (Registry.anthropic_tools tools)
        (Py.strip input) (log ++ [EvListTools s (Ok tools)]) = Err e
  | Client.OPENAI =>
      OpenAI.first_response w (Client.openai c)
        (Client.full_model_name c) (Registry.openai_tools tools)
        (Py.strip input) (log ++ [EvListTools s (Ok tools)]) = Err e
  end →
  ∃ first,
    Client.chat_step w env c input log
    = (Client.Continue, c, [Client.PError e],
       log ++ [EvListTools s (Ok tools); first])
    ∧ Trace.provider_error first = Some e.
Proof.
  intros Hquit Huse Hs Htools Hfirst.
  unfold Client.chat_step. unfold Lifecycle.is_quit in Hquit.
  rewrite Hquit, Huse. unfold Client.process_query. rewrite Hs, Htools.
  destruct (Client.provider c).
  - rewrite anthropic_query_unfold. cbv zeta.
    unfold Anthropic.first_call. rewrite Hfirst. eexists. split.
    + simpl. by rewrite <- app_assoc.
    + done.
  - rewrite openai_query_unfold. cbv zeta.
    unfold OpenAI.first_call. rewrite Hfirst. eexists. split.
    + simpl. by rewrite <- app_assoc.
    + done.
Qed.

Lemma provider_failure_is_printed_witness :
  let w := Script.world [Err "unauthorized"] [] Script.tools in
  let c := Script.connected Client.ANTHROPIC in
  Lifecycle.is_quit " hello " = false
  ∧ Client.is_use (Py.strip " hello ") = false
  ∧ ∃ first,
      Client.chat_step w Script.environ c " hello " []
      = (Client.Continue, c, [Client.PError "unauthorized"],
         [] ++ [EvListTools 7 (Ok []); first])
      ∧ Trace.provider_error first = Some "unauthorized".
Proof.
  intros w c. split; [reflexivity |]. split; [reflexivity |].
  exact (provider_failure_is_printed w Script.environ c " hello " [] 7 []
           "unauthorized" eq_refl eq_refl eq_refl eq_refl eq_refl).
Defined.







(** ** The usage example *)

Lemma part_keeps_balance h w env p model path queries hlog log :
  Lifecycle.released hlog ≡ₚ Lifecycle.acquired hlog →
  Lifecycle.released
    (Example.host_log (Example.part h w env p model path queries hlog log))
  ≡ₚ Lifecycle.acquired
       (Example.host_log (Example.part h w env p model path queries hlog log)).
Proof.
  intros Hbal. unfold Example.part, Lifecycle.construct.
  destruct (Client.__init__ env p (Some model)) as [c | e]; [| done].
  pose proof (connect_accounts h w (Lifecycle.mkInstance c [] None) path
                hlog log) as H.
  destruct (Lifecycle.connect_to_server h w _ path hlog log)
    as [[[inst1 r] hlog1] log1].
  destruct H as (new & -> & Hrel & Hstack & _). simpl in Hstack.
  assert (Hclosed :
            Lifecycle.released
              ((hlog ++ new)
                 ++ map Lifecycle.HClose (rev (Lifecycle.exit_stack inst1)))
            ≡ₚ Lifecycle.acquired
                 ((hlog ++ new)
                    ++ map Lifecycle.HClose
                         (rev (Lifecycle.exit_stack inst1)))).
  { unfold Lifecycle.released, Lifecycle.acquired in *.
    rewrite !omap_app, Hrel.
    fold (Lifecycle.released
            (map Lifecycle.HClose (rev (Lifecycle.exit_stack inst1)))).
    fold (Lifecycle.acquired
            (map Lifecycle.HClose (rev (Lifecycle.exit_stack inst1)))).
    rewrite released_closes, acquired_closes, Hstack, !app_nil_r.
    simpl. rewrite Hbal. apply Permutation_app_head.
    symmetry. apply Permutation_rev. }
  destruct r as [tools | e]; simpl; [| done].
  by destruct (Example.run_queries w (Lifecycle.self inst1) queries log1)
    as [[out log2] err].
Qed.

Lemma anthropic_query_never_calls_openai w c query log :
  Client.provider c = Client.ANTHROPIC →
  ∃ new, (Client.process_query w c query log).2 = log ++ new
         ∧ Forall Example.not_openai new.
Proof.
  intros Hp. destruct (Client.session c) as [s |] eqn:Hs.
  - destruct (list_tools w log s) as [tools | e] eqn:Htools.
    + destruct (process_query_calls w c query log s tools Hs Htools)
        as (first & rest & -> & Hfirst & Hrest).
      eexists. split; [done |].
      unfold Calls.initial_call in Hfirst. rewrite Hp in *.
      constructor; [done |]. constructor; [by destruct first |].
      eapply Forall_impl; [exact Hrest |].
      intros ev Hev. destruct ev; try done. by destruct Hev.
    + exists [EvListTools s (Err e)]. unfold Client.process_query.
      rewrite Hs, Htools. split; [done | by repeat constructor].
  - exists []. unfold Client.process_query. rewrite Hs.
    by rewrite app_nil_r.
Qed.

Lemma run_queries_never_call_openai w c queries :
  Client.provider c = Client.ANTHROPIC →
  ∀ log, ∃ new,
    (Example.run_queries w c queries log).1.2 = log ++ new
    ∧ Forall Example.not_openai new.
Proof.
  intros Hp. induction queries as [| query queries IH]; intros log; simpl.
  - exists []. by rewrite app_nil_r.
  - destruct (anthropic_query_never_calls_openai w c query log Hp)
      as (new1 & Hlog1 & Hall1).
    destruct (Client.process_query w c query log) as [[c' r] log1].
    simpl in Hlog1. subst log1. destruct r as [response | e].
    + destruct (IH (log ++ new1)) as (new2 & Hlog2 & Hall2).
      destruct (Example.run_queries w c queries (log ++ new1))
        as [[out log2] err].
      simpl in *. subst log2. exists (new1 ++ new2).
      rewrite app_assoc. split; [done | by apply Forall_app].
    + by exists new1.
Qed.

Lemma first_part_never_calls_openai h w env :
  Forall Example.not_openai (Example.call_log (Example.first_part h w env)).
Proof.
  unfold Example.first_part, Example.part, Lifecycle.construct.
  destruct (Client.__init__ env Client.ANTHROPIC (Some "claude-3-sonnet"))
    as [c |] eqn:Hinit; [| constructor].
  apply init_ready in Hinit as (_ & _ & Hp & _).
  pose proof (connect_accounts h w (Lifecycle.mkInstance c [] None)
                Example.server_path [] []) as H.
  destruct (Lifecycle.connect_to_server h w _ Example.server_path [] [])
    as [[[inst1 r] hlog1] log1].
  destruct H as (new & _ & _ & _ & _ & Hp1 & _ & _ & _ & _ & Hr).
  simpl in Hp1. destruct r as [tools | e].
  - destruct Hr as (t & s & _ & _ & _ & ->).
    destruct (run_queries_never_call_openai w (Lifecycle.self inst1)
                Example.claude_queries ltac:(congruence)
                ([] ++ [EvListTools s (Ok tools)]))
      as (new2 & Hlog & Hall).
    destruct (Example.run_queries w (Lifecycle.self inst1)
                Example.claude_queries ([] ++ [EvListTools s (Ok tools)]))
      as [[out log2] err].
    simpl in *. subst log2. by constructor.
  - simpl. destruct Hr as [-> | (s & e' & ->)]; by repeat constructor.
Qed.

(** X25.  The usage example releases what it acquires, however it ends:
    every transport and session that it opened has been closed when [main]
    is left, normally or by an exception.  An exception in its first part
    (a missing key, a failed connection or a query that raises) is the
    exception of [main]: the second part does not run, and provider B is
    never called. *)
Theorem example_releases_and_stops h w env :
  let r := Example.main h w env in
  Lifecycle.released (Example.host_log r)
  ≡ₚ Lifecycle.acquired (Example.host_log r)
  ∧ match Example.raised (Example.first_part h w env) with
    | Some e =>
        Example.raised r = Some e
        ∧ Forall Example.not_openai (Example.call_log r)
    | None => True
    end.
Proof.
  intros r. subst r. unfold Example.main.
  pose proof (part_keeps_balance h w env Client.ANTHROPIC "claude-3-sonnet"
                Example.server_path Example.claude_queries [] []
                ltac:(done)) as H1.
  fold (Example.first_part h w env) in H1.
  pose proof (first_part_never_calls_openai h w env) as Hno.
  destruct (Example.raised (Example.first_part h w env)) as [e |] eqn:Hr.
  - by rewrite Hr.
  - split; [| done]. simpl. by apply part_keeps_balance.
Qed.

Lemma run_queries_app w c pre post :
  ∀ log,
    Example.run_queries w c (pre ++ post) log
    = let '(out1, log1, err1) := Example.run_queries w c pre log in
      match err1 with
      | Some e => (out1, log1, Some e)
      | None =>
          let '(out2, log2, err2) := Example.run_queries w c post log1 in
          (out1 ++ out2, log2, err2)
      end.
Proof.
  induction pre as [| query pre IH]; intros log; simpl.
  - by destruct (Example.run_queries w c post log) as [[? ?] ?].
  - destruct (Client.process_query w c query log) as [[c' r] log1].
    destruct r as [response | e]; [| done]. rewrite IH.
    destruct (Example.run_queries w c pre log1) as [[out1 log2] [e |]];
      [done |].
    by destruct (Example.run_queries w c post log2) as [[? ?] ?].
Qed.

(** X26.  In the usage example a query that raises ends the loop over the
    queries: the queries after it are never sent, nothing is shown for them,
    and the exception is what the loop is left with. *)
Theorem raising_query_skips_the_rest w c pre query post log out log1 e log2 :
  Example.run_queries w c pre log = (out, log1, None) →
  (Client.process_query w c query log1).1.2 = Err e →
  (Client.process_query w c query log1).2 = log2 →
  Example.run_queries w c (pre ++ query :: post) log
  = (out ++ [Example.SQuery query], log2, Some e).
Proof.
  intros Hpre Herr Hlog. rewrite run_queries_app, Hpre. simpl.
  destruct (Client.process_query w c query log1) as [[c' r] log'].
  simpl in *. by subst.
Qed.

Lemma raising_query_skips_the_rest_witness :
  let w := Script.world [Ok [TextBlock "Sunny."]; Err "rate limited"] []
             Script.tools in
  let c := Script.connected Client.ANTHROPIC in
  ∃ log1 log2,
    Example.run_queries w c ["weather?"] []
    = ([Example.SQuery "weather?"; Example.SResponse "Sunny."], log1, None)
    ∧ (Client.process_query w c "joke?" log1).1.2 = Err "rate limited"
    ∧ Example.run_queries w c (["weather?"] ++ "joke?" :: ["price?"]) []
      = ([Example.SQuery "weather?"; Example.SResponse "Sunny."]
           ++ [Example.SQuery "joke?"], log2, Some "rate limited").
Proof.
  intros w c. eexists _, _.
  split; [reflexivity |]. split; [reflexivity |].
  exact (raising_query_skips_the_rest w c ["weather?"] "joke?" ["price?"]
           [] _ _ "rate limited" _ eq_refl eq_refl eq_refl).
Defined.
